(** * Coffee-shop catalog backend: [backend/src/api.py]

    A shallow embedding of the Flask application of [backend/src/api.py]:
    the five route handlers, the error handlers and the dispatch that ties
    them together, over explicit state passing.

    The values that travel through the handlers are Python objects decoded
    from JSON, so the embedding starts with those, then the [json] module
    functions the handlers and the model call, the exceptions, the
    collaborators of [api.py] that live in other modules ([database/models.py]
    and [auth/auth.py]), and at last [api.py] itself. *)

From Stdlib Require Import ZArith List String Ascii Bool Lia.
From Stdlib Require Import DecimalString Decimal DecimalZ DecimalFacts DecimalPos DecimalN.
Import ListNotations.
Local Open Scope string_scope.
Local Open Scope Z_scope.

(** ** Python values decoded from JSON *)

Module Py.

(** What [request.get_json()] hands to a handler: [None], a [bool], an [int],
    a [str], a [list] or a [dict].  A [dict] keeps its insertion order, so it
    is an association list, with each key once.  Numbers are the integers
    (recipe [parts] are integers); characters are the code points below
    256. *)
#[warnings="-register-all"]
Inductive json : Type :=
| JNull
| JBool (b : bool)
| JNum (z : Z)
| JStr (s : string)
| JArr (l : list json)
| JObj (kvs : list (string * json)).

(** An induction principle that reaches inside lists and dicts. *)
Section JsonInd.
Variable P : json -> Prop.
Hypothesis HNull : P JNull.
Hypothesis HBool : forall b, P (JBool b).
Hypothesis HNum : forall z, P (JNum z).
Hypothesis HStr : forall s, P (JStr s).
Hypothesis HArr : forall l, Forall P l -> P (JArr l).
Hypothesis HObj : forall kvs, Forall (fun kv => P (snd kv)) kvs -> P (JObj kvs).

Fixpoint json_ind' (v : json) : P v :=
  match v with
  | JNull => HNull
  | JBool b => HBool b
  | JNum z => HNum z
  | JStr s => HStr s
  | JArr l =>
      HArr l ((fix all (l : list json) : Forall P l :=
                 match l with
                 | [] => Forall_nil _
                 | x :: r => Forall_cons x (json_ind' x) (all r)
                 end) l)
  | JObj kvs =>
      HObj kvs ((fix all (l : list (string * json))
                   : Forall (fun kv => P (snd kv)) l :=
                   match l with
                   | [] => Forall_nil _
                   | (k, x) :: r =>
                       Forall_cons (k, x) (json_ind' x : P (snd (k, x))) (all r)
                   end) kvs)
  end.
End JsonInd.

(** Python's truth value of an object: [if x:]. *)
Definition truthy (v : json) : bool :=
  match v with
  | JNull => false
  | JBool b => b
  | JNum z => negb (z =? 0)
  | JStr s => negb (s =? "")%string
  | JArr l => match l with [] => false | _ => true end
  | JObj kvs => match kvs with [] => false | _ => true end
  end.

(** [isinstance(x, dict)]. *)
Definition is_dict (v : json) : bool :=
  match v with JObj _ => true | _ => false end.

(** Lookup of a key in a dict (the first binding of the key). *)
Fixpoint assoc {A : Type} (k : string) (kvs : list (string * A)) : option A :=
  match kvs with
  | [] => None
  | (k', v) :: r => if (k' =? k)%string then Some v else assoc k r
  end.

(** Equality of two values, for the comparisons the storage layer makes. *)
Fixpoint json_eqb (a b : json) : bool :=
  match a, b with
  | JNull, JNull => true
  | JBool x, JBool y => Bool.eqb x y
  | JNum x, JNum y => (x =? y)%Z
  | JStr x, JStr y => (x =? y)%string
  | JArr x, JArr y =>
      (fix go (x y : list json) : bool :=
         match x, y with
         | [], [] => true
         | a :: x', b :: y' => json_eqb a b && go x' y'
         | _, _ => false
         end) x y
  | JObj x, JObj y =>
      (fix go (x y : list (string * json)) : bool :=
         match x, y with
         | [], [] => true
         | (k, a) :: x', (k', b) :: y' =>
             (k =? k')%string && json_eqb a b && go x' y'
         | _, _ => false
         end) x y
  | _, _ => false
  end.

End Py.
Export Py.

(** ** The [json] module of the standard library: [dumps] and [loads] *)

Module Json.

Definition dquote : ascii := "034"%char.
Definition backslash : ascii := "092"%char.

(** The hexadecimal digit of a number below sixteen, in lower case. *)
Definition hex_digit (n : N) : ascii :=
  if (n <? 10)%N then ascii_of_N (48 + n) else ascii_of_N (87 + n).

(** [json.encoder.py_encode_basestring_ascii], one character: the two-letter
    escapes of [ESCAPE_DCT], the character itself from the space to the
    tilde, and the four-digit escape for every other one. *)
Definition escape_char (c : ascii) : string :=
  if (c =? dquote)%char then String backslash (String dquote "")
  else if (c =? backslash)%char then String backslash (String backslash "")
  else if (c =? "010")%char then String backslash "n"
  else if (c =? "013")%char then String backslash "r"
  else if (c =? "009")%char then String backslash "t"
  else if (c =? "008")%char then String backslash "b"
  else if (c =? "012")%char then String backslash "f"
  else
    let n := N_of_ascii c in
    if ((32 <=? n) && (n <=? 126))%N then String c ""
    else String backslash
           (String "u" (String "0" (String "0"
              (String (hex_digit (n / 16)) (String (hex_digit (n mod 16)) ""))))).

Fixpoint escape (s : string) : string :=
  match s with
  | EmptyString => ""
  | String c r => escape_char c ++ escape r
  end.

Definition encode_str (s : string) : string :=
  String dquote (escape s ++ String dquote "").

(** An [int] prints in decimal, with a minus sign when negative. *)
Definition encode_int (z : Z) : string :=
  NilZero.string_of_int (Z.to_int z).

(** One [key: value] item of a dict. *)
Definition encode_pair (k : string) (x : string) : string :=
  encode_str k ++ ": " ++ x.

(** [json.dumps(obj)] with the default separators [", "] and [": "]. *)
Fixpoint json_dumps (v : json) : string :=
  match v with
  | JNull => "null"
  | JBool true => "true"
  | JBool false => "false"
  | JNum z => encode_int z
  | JStr s => encode_str s
  | JArr l => "[" ++ String.concat ", " (map json_dumps l) ++ "]"
  | JObj kvs =>
      "{" ++ String.concat ", "
               (map (fun kv => match kv with
                               | (k, x) => encode_pair k (json_dumps x)
                               end) kvs) ++ "}"
  end.

(** *** Decoding *)

Definition is_ws (c : ascii) : bool :=
  ((c =? " ") || (c =? "009") || (c =? "010") || (c =? "013"))%char.

Fixpoint skip_ws (s : string) : string :=
  match s with
  | String c r => if is_ws c then skip_ws r else s
  | EmptyString => ""
  end.

Definition is_digit (c : ascii) : bool :=
  let n := N_of_ascii c in ((48 <=? n) && (n <=? 57))%N.

Fixpoint span_digits (s : string) : string * string :=
  match s with
  | String c r =>
      if is_digit c then let (d, t) := span_digits r in (String c d, t)
      else ("", s)
  | EmptyString => ("", "")
  end.

(** The value of a hexadecimal digit. *)
Definition hex_value (c : ascii) : option N :=
  let n := N_of_ascii c in
  if ((48 <=? n) && (n <=? 57))%N then Some (n - 48)%N
  else if ((97 <=? n) && (n <=? 102))%N then Some (n - 87)%N
  else if ((65 <=? n) && (n <=? 70))%N then Some (n - 55)%N
  else None.

Definition hex4 (a b c d : ascii) : option N :=
  match hex_value a, hex_value b, hex_value c, hex_value d with
  | Some x, Some y, Some z, Some w => Some (((x * 16 + y) * 16 + z) * 16 + w)%N
  | _, _, _, _ => None
  end.

Definition cons_char (c : ascii) (r : option (string * string))
  : option (string * string) :=
  match r with
  | Some (s, t) => Some (String c s, t)
  | None => None
  end.

(** The body of a string literal after its opening quote, up to the closing
    quote: [json.decoder.py_scanstring] in strict mode.  An escape of a code
    point from 256 on has no character here and is refused. *)
Fixpoint scan_string (s : string) : option (string * string) :=
  match s with
  | EmptyString => None
  | String c r =>
      if (c =? dquote)%char then Some ("", r)
      else if (c =? backslash)%char then
        match r with
        | String e r1 =>
            if (e =? dquote)%char then cons_char dquote (scan_string r1)
            else if (e =? backslash)%char then cons_char backslash (scan_string r1)
            else if (e =? "/")%char then cons_char "/" (scan_string r1)
            else if (e =? "b")%char then cons_char "008" (scan_string r1)
            else if (e =? "f")%char then cons_char "012" (scan_string r1)
            else if (e =? "n")%char then cons_char "010" (scan_string r1)
            else if (e =? "r")%char then cons_char "013" (scan_string r1)
            else if (e =? "t")%char then cons_char "009" (scan_string r1)
            else if (e =? "u")%char then
              match r1 with
              | String h1 (String h2 (String h3 (String h4 r2))) =>
                  match hex4 h1 h2 h3 h4 with
                  | Some n =>
                      if (n <? 256)%N then cons_char (ascii_of_N n) (scan_string r2)
                      else None
                  | None => None
                  end
              | _ => None
              end
            else None
        | EmptyString => None
        end
      else if (N_of_ascii c <? 32)%N then None
      else cons_char c (scan_string r)
  end.

(** The digits of an integer literal: a zero alone, or digits that start
    with a non-zero one.  After a leading zero the literal is over; a fraction
    or an exponent would make a [float], which the embedding has no value
    for, and is refused. *)
Definition scan_digits (neg : bool) (s : string) : option (Z * string) :=
  let (ds, rest) :=
    match s with
    | String c r => if (c =? "0")%char then ("0", r) else span_digits s
    | EmptyString => ("", "")
    end in
  match NilZero.uint_of_string ds with
  | None => None
  | Some u =>
      let z := if neg then - Z.of_uint u else Z.of_uint u in
      match rest with
      | String c _ =>
          if ((c =? ".") || (c =? "e") || (c =? "E"))%char then None
          else Some (z, rest)
      | EmptyString => Some (z, rest)
      end
  end.

(** An integer literal: an optional minus sign, then the digits. *)
Definition scan_number (s : string) : option (Z * string) :=
  match s with
  | String c r => if (c =? "-")%char then scan_digits true r else scan_digits false s
  | EmptyString => None
  end.

(** [scan_once] of the decoder, with its two loops for arrays and objects.
    The fuel bounds the nesting and the number of items; the length of the
    text is always enough. *)
Fixpoint scan_value (fuel : nat) (s : string) : option (json * string) :=
  match fuel with
  | O => None
  | S f =>
      match s with
      | String "n" (String "u" (String "l" (String "l" r))) => Some (JNull, r)
      | String "t" (String "r" (String "u" (String "e" r))) => Some (JBool true, r)
      | String "f" (String "a" (String "l" (String "s" (String "e" r)))) =>
          Some (JBool false, r)
      | String "[" r =>
          match skip_ws r with
          | String "]" r1 => Some (JArr [], r1)
          | r1 =>
              match scan_items f r1 with
              | Some (l, t) => Some (JArr l, t)
              | None => None
              end
          end
      | String "{" r =>
          match skip_ws r with
          | String "}" r1 => Some (JObj [], r1)
          | r1 =>
              match scan_pairs f r1 with
              | Some (l, t) => Some (JObj l, t)
              | None => None
              end
          end
      | String c r =>
          if (c =? dquote)%char then
            match scan_string r with
            | Some (x, t) => Some (JStr x, t)
            | None => None
            end
          else
            match scan_number s with
            | Some (z, t) => Some (JNum z, t)
            | None => None
            end
      | EmptyString => None
      end
  end
with scan_items (fuel : nat) (s : string) : option (list json * string) :=
  match fuel with
  | O => None
  | S f =>
      match scan_value f s with
      | None => None
      | Some (x, t) =>
          match skip_ws t with
          | String "]" t1 => Some ([x], t1)
          | String "," t1 =>
              match scan_items f (skip_ws t1) with
              | Some (l, t2) => Some (x :: l, t2)
              | None => None
              end
          | _ => None
          end
      end
  end
with scan_pairs (fuel : nat) (s : string)
  : option (list (string * json) * string) :=
  match fuel with
  | O => None
  | S f =>
      match s with
      | String c r =>
          if (c =? dquote)%char then
            match scan_string r with
            | None => None
            | Some (k, t) =>
                match skip_ws t with
                | String ":" t1 =>
                    match scan_value f (skip_ws t1) with
                    | None => None
                    | Some (x, t2) =>
                        match skip_ws t2 with
                        | String "}" t3 => Some ([(k, x)], t3)
                        | String "," t3 =>
                            match scan_pairs f (skip_ws t3) with
                            | Some (l, t4) => Some ((k, x) :: l, t4)
                            | None => None
                            end
                        | _ => None
                        end
                    end
                | _ => None
                end
            end
          else None
      | EmptyString => None
      end
  end.

(** [json.loads(s)]: one value, with white space allowed around it; [None]
    stands for the [JSONDecodeError] it raises. *)
Definition json_loads (s : string) : option json :=
  match scan_value (S (String.length s)) (skip_ws s) with
  | Some (v, t) =>
      match skip_ws t with
      | EmptyString => Some v
      | _ => None
      end
  | None => None
  end.

End Json.
Export Json.

(** ** Exceptions and the monad of the handlers *)

(** Modelled from the spec: the class [AuthError(error, status_code)] of
    [auth/auth.py], which [api.py] imports: a failure carries a status code
    and, in the dict [error], a machine-readable code and a description. *)
Record AuthError : Type := mkAuthError {
  error : list (string * string);
  status_code : Z
}.

(** The exceptions that can travel through a view function. [HTTPException] is
    what [abort(code)] raises. *)
Inductive exn : Type :=
| KeyError (key : string)
| TypeError
| AttributeError
| JSONDecodeError
| IntegrityError
| MultipleResultsFound
| HTTPException (code : Z)
| RaisedAuthError (e : AuthError).

Inductive result (A : Type) : Type :=
| Ok (a : A)
| Raise (e : exn).
Arguments Ok {A} a.
Arguments Raise {A} e.

(** ** [database/models.py] *)

Module Models.

(** Modelled from the spec: the class [Drink] of [database/models.py]
    (section 3): an integer [id], a [title], and a [recipe] stored as a
    serialized blob, the text that [json.dumps] made.  The title holds
    whatever the handler assigns to it. *)
Record Drink : Type := mkDrink {
  id : Z;
  title : json;
  recipe : string
}.

(** What reaches the storage layer, in the order it does: the embedding
    keeps this log to tell a request that was turned away before the storage
    layer from one that read it. *)
Inductive StorageOp : Type :=
| OpQueryAll
| OpQueryById (k : Z)
| OpInsert
| OpUpdate (k : Z)
| OpDelete (k : Z).

(** The database: the rows of the table in insertion order, and the
    operations the storage layer has served so far. *)
Record Store : Type := mkStore {
  rows : list Drink;
  ops : list StorageOp
}.

End Models.
Export Models.

(** A computation that reads and writes the store and may raise. *)
Definition M (A : Type) : Type := Store -> result A * Store.

Definition ret {A : Type} (a : A) : M A := fun s => (Ok a, s).

Definition raise {A : Type} (e : exn) : M A := fun s => (Raise e, s).

Definition bind {A B : Type} (m : M A) (k : A -> M B) : M B :=
  fun s =>
    match m s with
    | (Ok a, s') => k a s'
    | (Raise e, s') => (Raise e, s')
    end.

(** A pure computation that may raise, run inside a handler. *)
Definition lift {A : Type} (r : result A) : M A := fun s => (r, s).

(** [try: body  except Exception as e: handler(e)]. *)
Definition try_except {A : Type} (body : M A) (handler : exn -> M A) : M A :=
  fun s =>
    match body s with
    | (Ok a, s') => (Ok a, s')
    | (Raise e, s') => handler e s'
    end.

(** [abort(code)]. *)
Definition abort {A : Type} (code : Z) : M A := raise (HTTPException code).

Declare Scope handler_scope.
Delimit Scope handler_scope with handler.
Notation "x <- m ;; k" := (bind m (fun x => k))
  (at level 61, m at next level, right associativity) : handler_scope.
Notation "m ;;; k" := (bind m (fun _ => k))
  (at level 61, right associativity) : handler_scope.
Local Open Scope handler_scope.

(** [obj[key]]: a [KeyError] on a dict without the key, a [TypeError] on
    anything that is not a dict (a list or a string takes no string index,
    [None] and numbers take none at all). *)
Definition getitem (obj : json) (key : string) : result json :=
  match obj with
  | JObj kvs =>
      match assoc key kvs with
      | Some v => Ok v
      | None => Raise (KeyError key)
      end
  | _ => Raise TypeError
  end.

(** [obj.get(key)]: [None] on a dict without the key, an [AttributeError] on
    anything that is not a dict. *)
Definition get (obj : json) (key : string) : result json :=
  match obj with
  | JObj kvs =>
      match assoc key kvs with
      | Some v => Ok v
      | None => Ok JNull
      end
  | _ => Raise AttributeError
  end.

(** [for r in obj]: the items of a list, the keys of a dict, the characters
    of a string; nothing else can be iterated. *)
Definition iterate (obj : json) : result (list json) :=
  match obj with
  | JArr l => Ok l
  | JObj kvs => Ok (map (fun kv => JStr (fst kv)) kvs)
  | JStr s => Ok (map (fun c => JStr (String c "")) (list_ascii_of_string s))
  | _ => Raise TypeError
  end.

(** A list comprehension whose body may raise. *)
Fixpoint comprehension {A B : Type} (f : A -> result B) (l : list A)
  : result (list B) :=
  match l with
  | [] => Ok []
  | x :: r =>
      match f x with
      | Raise e => Raise e
      | Ok y =>
          match comprehension f r with
          | Raise e => Raise e
          | Ok ys => Ok (y :: ys)
          end
      end
  end.

Definition rbind {A B : Type} (r : result A) (k : A -> result B) : result B :=
  match r with
  | Ok a => k a
  | Raise e => Raise e
  end.

(** ** The [Drink] model: queries, [insert], [update], [delete], [short], [long] *)

Module DrinkModel.

(** Modelled from the spec: [Drink()] of [database/models.py], an instance
    that is not in the table yet.  Its [id] is assigned by [insert] and its
    [title] and [recipe] are assigned by the handler before that, so the
    values here are never read. *)
Definition Drink_new : Drink := mkDrink 0 JNull "".

Definition set_title (d : Drink) (t : json) : Drink := mkDrink (id d) t (recipe d).

Definition set_recipe (d : Drink) (r : string) : Drink := mkDrink (id d) (title d) r.

Definition log (o : StorageOp) : M unit :=
  fun s => (Ok tt, mkStore (rows s) (ops s ++ [o])).

(** Modelled from the spec: the identifier the storage layer assigns on
    creation ([database/models.py] declares the column): an integer that no
    row of the table has, one more than the largest in use. *)
Definition fresh_id (l : list Drink) : Z :=
  1 + fold_right Z.max 0 (map id l).

(** Modelled from the spec: [Drink.query.all()], every row of the table. *)
Definition query_all : M (list Drink) :=
  log OpQueryAll ;;; (fun s => (Ok (rows s), s)).

(** Modelled from the spec: [Drink.query.filter(Drink.id == k).one_or_none()]:
    the row with that id, [None] when there is none, and an exception when
    there are several. *)
Definition query_one_or_none (k : Z) : M (option Drink) :=
  log (OpQueryById k) ;;;
  (fun s =>
     match filter (fun d => id d =? k) (rows s) with
     | [] => (Ok None, s)
     | [d] => (Ok (Some d), s)
     | _ :: _ :: _ => (Raise MultipleResultsFound, s)
     end).

(** Modelled from the spec: [drink.insert()] of [database/models.py].  The
    title must be unique across all items, which the persistence layer
    enforces: a title that a row already has is a failure and leaves the
    table as it was; otherwise the row is added under a fresh id. *)
Definition insert (d : Drink) : M Drink :=
  log OpInsert ;;;
  (fun s =>
     if existsb (fun r => json_eqb (title r) (title d)) (rows s)
     then (Raise IntegrityError, s)
     else
       let d' := mkDrink (fresh_id (rows s)) (title d) (recipe d) in
       (Ok d', mkStore (rows s ++ [d']) (ops s))).

(** Modelled from the spec: [drink.update()] of [database/models.py], which
    writes the instance back to its row.  A title that was changed to one that
    another row has violates the uniqueness of titles: a failure that leaves
    the table as it was. *)
Definition update (d : Drink) : M unit :=
  log (OpUpdate (id d)) ;;;
  (fun s =>
     let changed r := (id r =? id d) && negb (json_eqb (title r) (title d)) in
     let clash r := negb (id r =? id d) && json_eqb (title r) (title d) in
     if existsb changed (rows s) && existsb clash (rows s)
     then (Raise IntegrityError, s)
     else
       (Ok tt,
        mkStore (map (fun r => if id r =? id d then d else r) (rows s)) (ops s))).

(** Modelled from the spec: [drink.delete()] of [database/models.py], a hard
    delete of the row. *)
Definition delete (d : Drink) : M unit :=
  log (OpDelete (id d)) ;;;
  (fun s =>
     (Ok tt, mkStore (filter (fun r => negb (id r =? id d)) (rows s)) (ops s))).

(** Modelled from the spec: [drink.long()] of [database/models.py], the full
    projection [{id, title, recipe}] with the stored recipe decoded. *)
Definition long (d : Drink) : result json :=
  match json_loads (recipe d) with
  | None => Raise JSONDecodeError
  | Some r => Ok (JObj [("id", JNum (id d)); ("title", title d); ("recipe", r)])
  end.

(** Modelled from the spec: [drink.short()] of [database/models.py], the
    projection [{id, title, recipe: [{color, parts}]}] that leaves out the
    name of each ingredient. *)
Definition short (d : Drink) : result json :=
  match json_loads (recipe d) with
  | None => Raise JSONDecodeError
  | Some r =>
      rbind (iterate r) (fun entries =>
      rbind (comprehension
               (fun e =>
                  rbind (getitem e "color") (fun c =>
                  rbind (getitem e "parts") (fun p =>
                  Ok (JObj [("color", c); ("parts", p)]))))
               entries) (fun short_recipe =>
      Ok (JObj [("id", JNum (id d)); ("title", title d);
                ("recipe", JArr short_recipe)])))
  end.

(** Modelled from the spec: [db_drop_and_create_all()] of
    [database/models.py], described at its call in [api.py]: it drops all
    records and starts the database from scratch, then adds the rows
    [initial] that [models.py] ships with. *)
Definition db_drop_and_create_all (initial : list Drink) : M unit :=
  fun s => (Ok tt, mkStore initial (ops s)).

End DrinkModel.

(** ** The HTTP request *)

(** The methods of the requests that reach the rules of [api.py] or are
    refused by them.  [OPTIONS], which Flask answers by itself on every rule,
    and [HEAD] are not among them. *)
Inductive Method : Type := GET | POST | PATCH | DELETE | PUT.

(** The URLs the application is asked for: the three rules of its URL map
    and everything else. *)
Inductive Path : Type :=
| PathDrinks
| PathDrinksDetail
| PathDrinkId (k : Z)
| PathOther.

(** Flask's [request]: the method and URL, the [Authorization] header when
    there is one, and what [request.get_json()] returns.  A request whose
    body [get_json] cannot read is refused inside that call, the first
    statement of [create_drink] and of [update_drink]; the requests here are
    those whose body it has read. *)
Record Request : Type := mkRequest {
  method : Method;
  path : Path;
  authorization : option string;
  get_json : json
}.

(** What a view function returns: [jsonify(...), status]. *)
Record Response : Type := mkResponse {
  body : json;
  status : Z
}.

(** ** [auth/auth.py] *)

Module Auth.

(** Modelled from the spec: the claims of a verified credential: an issuer, an
    audience, an expiry and, when the token carries them, the permissions. *)
Record Claims : Type := mkClaims {
  iss : string;
  aud : string;
  exp : Z;
  permissions : option (list string)
}.

(** Modelled from the spec: what checking a token against the issuer's
    published signing keys and the expected audience comes to (section 4.1):
    no published key validates its signature, it cannot be decoded, it is
    expired, its issuer or audience is not the expected one, or it is good
    and yields its claims. *)
Inductive JwtOutcome : Type :=
| NoSigningKey
| Undecodable
| Expired
| WrongIssuerOrAudience
| Verified (claims : Claims).

(** Modelled from the spec: the failures carry a code and a description, and
    the status 401. *)
Definition auth_failure (code description : string) : AuthError :=
  mkAuthError [("code", code); ("description", description)] 401.

Fixpoint has_space (s : string) : bool :=
  match s with
  | EmptyString => false
  | String c r => (c =? " ")%char || has_space r
  end.

(** Modelled from the spec: [get_token_auth_header()] of [auth/auth.py]: the
    token of a header of the form [Bearer <token>]; an absent header and a
    header of another form are failures. *)
Definition get_token_auth_header (req : Request) : result string :=
  match authorization req with
  | None =>
      Raise (RaisedAuthError
               (auth_failure "authorization_header_missing"
                             "Authorization header is expected."))
  | Some (String "B" (String "e" (String "a" (String "r" (String "e"
            (String "r" (String " " token))))))) =>
      if (token =? "")%string || has_space token
      then Raise (RaisedAuthError
                    (auth_failure "invalid_header"
                                  "Authorization header must be a bearer token."))
      else Ok token
  | Some _ =>
      Raise (RaisedAuthError
               (auth_failure "invalid_header"
                             "Authorization header must be a bearer token."))
  end.

Section Verifier.

(** The token-verification library and the issuer's key set, which the
    application consumes as a black box. *)
Variable jwt_decode : string -> JwtOutcome.

(** Modelled from the spec: [verify_decode_jwt(token)] of [auth/auth.py]
    (section 4.1): the decoded claims, or a failure with its own code for each
    way the verification fails. *)
Definition verify_decode_jwt (token : string) : result Claims :=
  match jwt_decode token with
  | Verified claims => Ok claims
  | NoSigningKey =>
      Raise (RaisedAuthError
               (auth_failure "invalid_key" "Unable to find the appropriate key."))
  | Undecodable =>
      Raise (RaisedAuthError
               (auth_failure "invalid_token" "Unable to parse authentication token."))
  | Expired =>
      Raise (RaisedAuthError (auth_failure "token_expired" "Token expired."))
  | WrongIssuerOrAudience =>
      Raise (RaisedAuthError
               (auth_failure "invalid_claims"
                             "Incorrect claims. Please, check the audience and issuer."))
  end.

(** Modelled from the spec: [check_permissions(permission, payload)] of
    [auth/auth.py] (section 4.2): a failure when the claims have no
    permissions at all, another when the required one is not among them. *)
Definition check_permissions (permission : string) (payload : Claims)
  : result unit :=
  match permissions payload with
  | None =>
      Raise (RaisedAuthError
               (auth_failure "permissions_missing" "Permissions not included in JWT."))
  | Some granted =>
      if existsb (String.eqb permission) granted then Ok tt
      else Raise (RaisedAuthError
                    (auth_failure "unauthorized" "Permission not found."))
  end.

(** Modelled from the spec: the decorator [requires_auth(permission)] of
    [auth/auth.py]: the token is taken from the header, verified, and checked
    for the permission; only then does the decorated function run, with the
    claims as its first argument. *)
Definition requires_auth {A : Type} (permission : string)
  (f : Claims -> M A) (req : Request) : M A :=
  token <- lift (get_token_auth_header req) ;;
  payload <- lift (verify_decode_jwt token) ;;
  lift (check_permissions permission payload) ;;;
  f payload.

End Verifier.

End Auth.
Export Auth.

(** ** [api.py] *)

Module Api.

Import DrinkModel.

Section App.

Variable jwt_decode : string -> JwtOutcome.

(** [GET /drinks], decorated with [requires_auth('get:drinks')]. *)
Definition get_drinks (payload : Claims) : M Response :=
  drinks <- query_all ;;
  shorts <- lift (comprehension short drinks) ;;
  ret (mkResponse (JObj [("success", JBool true); ("drinks", JArr shorts)]) 200).

(** [GET /drinks-detail], decorated with [requires_auth('get:drinks-detail')]. *)
Definition get_drink_detail (payload : Claims) : M Response :=
  drinks <- query_all ;;
  longs <- lift (comprehension long drinks) ;;
  ret (mkResponse (JObj [("success", JBool true); ("drinks", JArr longs)]) 200).

(** The [try] block of [create_drink]. *)
Definition create_drink_try (request_json : json) : M Drink :=
  recipe_request <- lift (getitem request_json "recipe") ;;
  let recipe_request :=
    if is_dict recipe_request then JArr [recipe_request] else recipe_request in
  let drink := Drink_new in
  title_request <- lift (getitem request_json "title") ;;
  let drink := set_title drink title_request in
  let drink := set_recipe drink (json_dumps recipe_request) in
  insert drink.

(** [POST /drinks], decorated with [requires_auth('post:drinks')]. *)
Definition create_drink (req : Request) (payload : Claims) : M Response :=
  let request_json := get_json req in
  drink <- try_except (create_drink_try request_json) (fun e => abort 400) ;;
  view <- lift (long drink) ;;
  ret (mkResponse (JObj [("success", JBool true); ("drinks", JArr [view])]) 200).

(** The [try] block of [update_drink]. *)
Definition update_drink_try (request_json : json) (drink_query : Drink)
  : M Drink :=
  title_request <- lift (get request_json "title") ;;
  recipe_request <- lift (get request_json "recipe") ;;
  let drink_query :=
    if truthy title_request then set_title drink_query title_request
    else drink_query in
  drink_query <-
    (if truthy recipe_request
     then r <- lift (getitem request_json "recipe") ;;
          ret (set_recipe drink_query (json_dumps r))
     else ret drink_query) ;;
  update drink_query ;;;
  ret drink_query.

(** [PATCH /drinks/<int:id>], decorated with [requires_auth('patch:drinks')]. *)
Definition update_drink (req : Request) (k : Z) (payload : Claims)
  : M Response :=
  let request_json := get_json req in
  found <- query_one_or_none k ;;
  match found with
  | None => abort 404
  | Some drink_query =>
      drink_query <-
        try_except (update_drink_try request_json drink_query)
                   (fun e => abort 400) ;;
      view <- lift (long drink_query) ;;
      ret (mkResponse
             (JObj [("success", JBool true); ("drinks", JArr [view])]) 200)
  end.

(** [DELETE /drinks/<int:id>], decorated with [requires_auth('delete:drinks')]. *)
Definition delete_drink (k : Z) (payload : Claims) : M Response :=
  found <- query_one_or_none k ;;
  match found with
  | None => abort 404
  | Some drink_query =>
      try_except (delete drink_query) (fun e => abort 400) ;;;
      ret (mkResponse (JObj [("success", JBool true); ("delete", JNum k)]) 200)
  end.

(** *** Error handling *)

Definition unprocessable : Response :=
  mkResponse (JObj [("success", JBool false); ("error", JNum 422);
                    ("message", JStr "unprocessable")]) 422.

Definition not_found : Response :=
  mkResponse (JObj [("success", JBool true); ("error", JNum 404);
                    ("message", JStr "Resource Not Found")]) 404.

(** The handler of [AuthError]; [error.error['description']] is a lookup in
    a dict. *)
Definition auth_error (e : AuthError) : result Response :=
  match assoc "description" (error e) with
  | None => Raise (KeyError "description")
  | Some description =>
      Ok (mkResponse (JObj [("success", JBool false);
                            ("error", JNum (status_code e));
                            ("message", JStr description)])
                     (status_code e))
  end.

Definition bad_request : Response :=
  mkResponse (JObj [("success", JBool false); ("error", JNum 400);
                    ("message", JStr "Bad Request")]) 400.

Definition unauthorized : Response :=
  mkResponse (JObj [("success", JBool false); ("error", JNum 401);
                    ("message", JStr "Unauthorized")]) 401.

Definition method_not_allowed : Response :=
  mkResponse (JObj [("success", JBool true); ("error", JNum 405);
                    ("message", JStr "Method Not Allowed")]) 405.

Definition internal_server_error : Response :=
  mkResponse (JObj [("success", JBool false); ("error", JNum 500);
                    ("message", JStr "Internal Server Error")]) 500.

(** The handlers registered with [@app.errorhandler(code)]. *)
Definition errorhandler (code : Z) : option Response :=
  if code =? 400 then Some bad_request
  else if code =? 401 then Some unauthorized
  else if code =? 404 then Some not_found
  else if code =? 405 then Some method_not_allowed
  else if code =? 422 then Some unprocessable
  else if code =? 500 then Some internal_server_error
  else None.

(** What Flask makes of an exception that leaves a view function: the
    registered handler of an HTTP error (its own page when none is
    registered, which has no JSON body), the handler of [AuthError], and
    the handler of 500 for every other exception, one raised by an error
    handler included. *)
Definition handle_exception (e : exn) : Response :=
  match e with
  | HTTPException code =>
      match errorhandler code with
      | Some r => r
      | None => mkResponse JNull code
      end
  | RaisedAuthError a =>
      match auth_error a with
      | Ok r => r
      | Raise _ => internal_server_error
      end
  | _ => internal_server_error
  end.

(** The URL map built by the [@app.route] decorators: the view function of a
    request, or the HTTP error of the routing. *)
Definition url_map (req : Request) : M Response :=
  match path req, method req with
  | PathDrinks, GET => requires_auth jwt_decode "get:drinks" get_drinks req
  | PathDrinks, POST =>
      requires_auth jwt_decode "post:drinks" (create_drink req) req
  | PathDrinksDetail, GET =>
      requires_auth jwt_decode "get:drinks-detail" get_drink_detail req
  | PathDrinkId k, PATCH =>
      requires_auth jwt_decode "patch:drinks" (update_drink req k) req
  | PathDrinkId k, DELETE =>
      requires_auth jwt_decode "delete:drinks" (delete_drink k) req
  | PathOther, _ => abort 404
  | _, _ => abort 405
  end.

(** One request served by the application. *)
Definition serve (req : Request) (s : Store) : Response * Store :=
  match url_map req s with
  | (Ok r, s') => (r, s')
  | (Raise e, s') => (handle_exception e, s')
  end.

(** The requests of a run of the process, served in order. *)
Fixpoint serve_all (reqs : list Request) (s : Store) : list Response * Store :=
  match reqs with
  | [] => ([], s)
  | req :: rest =>
      let (r, s1) := serve req s in
      let (rs, s2) := serve_all rest s1 in
      (r :: rs, s2)
  end.

(** A run of the process on the database file it finds: importing the module
    calls [db_drop_and_create_all()] (line 20), then the requests are
    served. *)
Definition run (initial : list Drink) (reqs : list Request) (found : Store)
  : list Response * Store :=
  match db_drop_and_create_all initial found with
  | (_, s) => serve_all reqs s
  end.

End App.

End Api.
Export Api.

(** * Verification *)

(** ** Definitions used by the statements *)

Local Open Scope string_scope.
Local Open Scope Z_scope.

(** The text after a number literal must not continue it. *)
Definition stops (s : string) : bool :=
  match s with
  | EmptyString => true
  | String c _ =>
      negb (is_digit c) && negb ((c =? ".") || (c =? "e") || (c =? "E"))%char
  end.

(** The fuel that decoding a value takes. *)
Fixpoint weight (v : json) : nat :=
  match v with
  | JArr l => S (list_sum (map (fun x => S (weight x)) l))
  | JObj kvs =>
      S (list_sum (map (fun kv => match kv with (_, x) => S (weight x) end) kvs))
  | _ => 1
  end.

(** The characters a value can start with in the text [json.dumps] writes. *)
Definition starts_value (c : ascii) : bool :=
  negb (is_ws c) && negb (c =? "]")%char && negb (c =? "}")%char
  && negb (c =? ",")%char && negb (c =? ":")%char.

(** What the induction proves of one value. *)
Definition decodes (v : json) : Prop :=
  forall (fuel : nat) (rest : string),
    (weight v <= fuel)%nat -> stops rest = true ->
    scan_value fuel (json_dumps v ++ rest) = Some (v, rest).

Definition dumps_pair (kv : string * json) : string :=
  match kv with (k, x) => encode_pair k (json_dumps x) end.

(** The value of a key of a JSON object: how a client reads a response. *)
Definition field (key : string) (v : json) : option json :=
  match v with
  | JObj kvs => assoc key kvs
  | _ => None
  end.

(** The id that a view of a drink shows. *)
Definition shown_id (item : json) : list Z :=
  match field "id" item with
  | Some (JNum k) => [k]
  | _ => []
  end.

(** The ids of the drinks that a response lists. *)
Definition listed_ids (r : Response) : list Z :=
  match field "drinks" (body r) with
  | Some (JArr items) => flat_map shown_id items
  | _ => []
  end.

(** The three checks of [requires_auth] on their own: the claims of a request
    that may call a function decorated with [permission]. *)
Definition authenticate (jwt_decode : string -> JwtOutcome)
  (permission : string) (req : Request) : result Claims :=
  rbind (get_token_auth_header req) (fun token =>
  rbind (verify_decode_jwt jwt_decode token) (fun payload =>
  rbind (check_permissions permission payload) (fun _ => Ok payload))).

(** The scope that each of the five routes requires, as the specification
    lists them (section 4.3). *)
Definition required_scope (req : Request) : option string :=
  match path req, method req with
  | PathDrinks, GET => Some "get:drinks"
  | PathDrinksDetail, GET => Some "get:drinks-detail"
  | PathDrinks, POST => Some "post:drinks"
  | PathDrinkId _, PATCH => Some "patch:drinks"
  | PathDrinkId _, DELETE => Some "delete:drinks"
  | _, _ => None
  end.

(** The three requests that the auth gating turns away: no [Authorization]
    header, an expired token, a token without the scope. *)
Inductive denied (jwt_decode : string -> JwtOutcome) (scope : string)
  (req : Request) : Prop :=
| denied_no_header :
    authorization req = None -> denied jwt_decode scope req
| denied_expired (token : string) :
    get_token_auth_header req = Ok token ->
    jwt_decode token = Expired -> denied jwt_decode scope req
| denied_scope (token : string) (claims : Claims) (granted : list string) :
    get_token_auth_header req = Ok token ->
    jwt_decode token = Verified claims ->
    permissions claims = Some granted ->
    ~ In scope granted -> denied jwt_decode scope req.

(** An [AuthError] that the token verifier or the scope authorizer raises. *)
Inductive raised_by_auth (jwt_decode : string -> JwtOutcome) (e : AuthError)
  : Prop :=
| raised_by_header (req : Request) :
    get_token_auth_header req = Raise (RaisedAuthError e) ->
    raised_by_auth jwt_decode e
| raised_by_verifier (token : string) :
    verify_decode_jwt jwt_decode token = Raise (RaisedAuthError e) ->
    raised_by_auth jwt_decode e
| raised_by_authorizer (permission : string) (payload : Claims) :
    check_permissions permission payload = Raise (RaisedAuthError e) ->
    raised_by_auth jwt_decode e.

(** The uniform error envelope of the specification (section 6) for a status:
    [{success: false, error: <status>, message: <string>}]. *)
Definition error_envelope (r : Response) : Prop :=
  exists message,
    body r = JObj [("success", JBool false); ("error", JNum (status r));
                   ("message", JStr message)].

(** The row that a create request with this title and recipe adds. *)
Definition created (t r : json) (s : Store) : Drink :=
  mkDrink (DrinkModel.fresh_id (rows s)) t
          (json_dumps (if is_dict r then JArr [r] else r)).

(** The field of an update body when it is there, [None] otherwise. *)
Definition submitted (request_json : json) (key : string) : json :=
  match get request_json key with
  | Ok v => v
  | Raise _ => JNull
  end.

(** The row that an update leaves, in the words of the specification: a
    field is overwritten when it is present and truthy in the body, and left
    as it is otherwise. *)
Definition patched (request_json : json) (d : Drink) : Drink :=
  mkDrink (id d)
    (if truthy (submitted request_json "title")
     then submitted request_json "title" else title d)
    (if truthy (submitted request_json "recipe")
     then json_dumps (submitted request_json "recipe") else recipe d).

(** The rows of the table with a given id. *)
Definition rows_with (k : Z) (s : Store) : list Drink :=
  filter (fun d => id d =? k) (rows s).

(** A table whose recipes are all texts that [json.dumps] wrote. *)
Definition well_stored (s : Store) : Prop :=
  Forall (fun d => exists v, recipe d = json_dumps v) (rows s).

(** A request that only reads or changes existing items: every one but the
    create request. *)
Definition creates (req : Request) : bool :=
  match path req, method req with
  | PathDrinks, POST => true
  | _, _ => false
  end.

(** *** Sample data for the examples *)

Definition every_scope : list string :=
  ["get:drinks"; "get:drinks-detail"; "post:drinks"; "patch:drinks";
   "delete:drinks"].

(** A token verifier for the examples: the token [manager] has every scope,
    [barista] the two that read, [stale] is expired and [bare] carries no
    permissions at all. *)
Definition sample_jwt (token : string) : JwtOutcome :=
  if (token =? "manager")%string
  then Verified (mkClaims "issuer" "drinks" 0 (Some every_scope))
  else if (token =? "barista")%string
  then Verified (mkClaims "issuer" "drinks" 0
                          (Some ["get:drinks"; "get:drinks-detail"]))
  else if (token =? "bare")%string
  then Verified (mkClaims "issuer" "drinks" 0 None)
  else if (token =? "stale")%string then Expired
  else Undecodable.

Definition empty_store : Store := mkStore [] [].

Definition water : json :=
  JObj [("name", JStr "water"); ("color", JStr "blue"); ("parts", JNum 1)].

Definition as_manager (m : Method) (p : Path) (request_json : json) : Request :=
  mkRequest m p (Some "Bearer manager") request_json.

(** A store with one drink, made by a create request. *)
Definition one_drink : Store :=
  snd (serve sample_jwt
         (as_manager POST PathDrinks
            (JObj [("title", JStr "Water"); ("recipe", JArr [water])]))
         empty_store).

(** The claims of the token [manager]. *)
Definition manager_claims : Claims :=
  mkClaims "issuer" "drinks" 0 (Some every_scope).

(** A create request fails: it is not answered 200 and adds no row. *)
Definition create_fails (jwt_decode : string -> JwtOutcome)
  (req : Request) (s : Store) : Prop :=
  status (fst (serve jwt_decode req s)) <> 200
  /\ rows (snd (serve jwt_decode req s)) = rows s.

(** *** Definitions of the further properties *)

(** An exception that is neither an HTTP error nor an [AuthError]: Flask has
    no handler for it but the one of 500. *)
Definition unhandled (e : exn) : bool :=
  match e with
  | HTTPException _ => false
  | RaisedAuthError _ => false
  | _ => true
  end.

(** How a view function ends: it returns 200 with [success] true and no
    [error] field, or it leaves through [abort(400)], through [abort(404)] or
    with an exception that nothing catches, which the handlers of 400, 404
    and 500 answer. *)
Definition view_outcome (o : result Response) : Prop :=
  match o with
  | Ok r =>
      status r = 200
      /\ field "success" (body r) = Some (JBool true)
      /\ field "error" (body r) = None
  | Raise e =>
      (e = HTTPException 400 /\ handle_exception e = bad_request)
      \/ (e = HTTPException 404 /\ handle_exception e = not_found)
      \/ (unhandled e = true /\ handle_exception e = internal_server_error)
  end.

(** The recipe that [create_drink] stores for a submitted one: a dict goes
    into a list. *)
Definition normalized (recipe_request : json) : json :=
  if is_dict recipe_request then JArr [recipe_request] else recipe_request.

(** A failure with a status code other than 401, as an [AuthError] may
    carry. *)
Definition forbidden : AuthError :=
  mkAuthError [("code", "forbidden"); ("description", "Not allowed here.")] 403.

(** ** [json.loads] undoes [json.dumps] *)

Lemma append_assoc (a b c : string) : (a ++ b) ++ c = a ++ (b ++ c).
Proof. induction a as [|x a IH]; simpl; [reflexivity | now rewrite IH]. Qed.

Lemma length_append (a b : string) :
  String.length (a ++ b) = (String.length a + String.length b)%nat.
Proof. induction a as [|x a IH]; simpl; [reflexivity | now rewrite IH]. Qed.

(** A case for each of the 256 characters. *)
Ltac each_char c :=
  let b0 := fresh "b" in let b1 := fresh "b" in let b2 := fresh "b" in
  let b3 := fresh "b" in let b4 := fresh "b" in let b5 := fresh "b" in
  let b6 := fresh "b" in let b7 := fresh "b" in
  destruct c as [b0 b1 b2 b3 b4 b5 b6 b7];
  destruct b0, b1, b2, b3, b4, b5, b6, b7.

Lemma scan_string_escape_char (c : ascii) (t : string) :
  scan_string (escape_char c ++ t) = cons_char c (scan_string t).
Proof.
  each_char c; reflexivity.
Qed.

Lemma scan_string_escape (s rest : string) :
  scan_string (escape s ++ String dquote rest) = Some (s, rest).
Proof.
  induction s as [|c s IH]; simpl.
  - reflexivity.
  - rewrite append_assoc, scan_string_escape_char, IH. reflexivity.
Qed.

Lemma span_digits_stop (rest : string) :
  stops rest = true -> span_digits rest = ("", rest).
Proof.
  destruct rest as [|c r]; simpl; [reflexivity|].
  destruct (is_digit c); simpl; [discriminate | reflexivity].
Qed.

Lemma span_digits_uint (u : uint) (rest : string) :
  stops rest = true ->
  span_digits (NilEmpty.string_of_uint u ++ rest)
  = (NilEmpty.string_of_uint u, rest).
Proof.
  intros Hs. induction u; simpl;
    [ now apply span_digits_stop | rewrite IHu; reflexivity .. ].
Qed.

Lemma nzhead_not_D0 (d d' : uint) : nzhead d <> D0 d'.
Proof. induction d; simpl; try discriminate. exact IHd. Qed.

Lemma to_uint_head (p : positive) :
  exists c t, NilEmpty.string_of_uint (Pos.to_uint p) = String c t
              /\ is_digit c = true /\ (c =? "0")%char = false.
Proof.
  assert (Hn : unorm (Pos.to_uint p) = Pos.to_uint p).
  { change (Pos.to_uint p) with (N.to_uint (Npos p)).
    rewrite <- (DecimalN.Unsigned.of_to (Npos p)) at 2.
    rewrite DecimalN.Unsigned.to_of. reflexivity. }
  pose proof (DecimalPos.Unsigned.to_uint_nonnil p) as Hnil.
  destruct (Pos.to_uint p) as [|d|d|d|d|d|d|d|d|d|d] eqn:E;
    try (simpl; eexists _, _; repeat split; reflexivity).
  - congruence.
  - exfalso. unfold unorm in Hn. simpl in Hn.
    destruct (nzhead d) eqn:Ez; try (apply (nzhead_not_D0 d d); congruence).
    injection Hn as Hd. subst d.
    apply (DecimalPos.Unsigned.to_uint_nonzero p). exact E.
Qed.

Lemma string_of_uint_pos (p : positive) :
  NilZero.string_of_uint (Pos.to_uint p)
  = NilEmpty.string_of_uint (Pos.to_uint p).
Proof.
  unfold NilZero.string_of_uint. destruct (Pos.to_uint p) eqn:E; try reflexivity.
  exfalso. apply (DecimalPos.Unsigned.to_uint_nonnil p E).
Qed.

Lemma scan_digits_pos (b : bool) (p : positive) (rest : string) :
  stops rest = true ->
  scan_digits b (NilEmpty.string_of_uint (Pos.to_uint p) ++ rest)
  = Some (if b then Z.neg p else Z.pos p, rest).
Proof.
  intros Hs. unfold scan_digits.
  destruct (to_uint_head p) as (c & t & Ec & Hd & Hz).
  rewrite (span_digits_uint _ _ Hs). rewrite Ec at 1. simpl. rewrite Hz.
  assert (Hu : NilZero.uint_of_string (NilEmpty.string_of_uint (Pos.to_uint p))
               = Some (Pos.to_uint p)).
  { rewrite <- string_of_uint_pos. apply NilZero.usu.
    apply DecimalPos.Unsigned.to_uint_nonnil. }
  rewrite Hu. unfold Z.of_uint. rewrite DecimalPos.Unsigned.of_to.
  destruct rest as [|c' r]; [destruct b; reflexivity|].
  simpl in Hs. apply andb_prop in Hs as [_ Hs].
  apply negb_true_iff in Hs. rewrite Hs. destruct b; reflexivity.
Qed.

Lemma scan_number_encode_int (z : Z) (rest : string) :
  stops rest = true ->
  scan_number (encode_int z ++ rest) = Some (z, rest).
Proof.
  intros Hs. unfold encode_int.
  destruct z as [|p|p]; simpl.
  - unfold scan_digits. simpl.
    destruct rest as [|c' r]; [reflexivity|].
    simpl in Hs. apply andb_prop in Hs as [_ Hs].
    apply negb_true_iff in Hs. rewrite Hs. reflexivity.
  - rewrite string_of_uint_pos.
    destruct (to_uint_head p) as (c & t & Ec & Hd & Hz).
    assert (Hm : (c =? "-")%char = false).
    { destruct (Ascii.eqb_spec c "-"); [subst c; discriminate Hd | reflexivity]. }
    rewrite Ec. simpl. rewrite Hm.
    change (String c (t ++ rest)) with (String c t ++ rest). rewrite <- Ec.
    apply (scan_digits_pos false p rest Hs).
  - rewrite string_of_uint_pos. apply (scan_digits_pos true p rest Hs).
Qed.

Lemma digit_starts_value (c : ascii) :
  is_digit c = true -> starts_value c = true.
Proof.
  each_char c; intros H; solve [reflexivity | discriminate H].
Qed.

Lemma dumps_head (v : json) :
  exists c t, json_dumps v = String c t /\ starts_value c = true.
Proof.
  destruct v as [|[|]|z|s|l|kvs]; simpl;
    try (eexists _, _; split; reflexivity).
  unfold encode_int. destruct z as [|p|p]; simpl;
    try (eexists _, _; split; reflexivity).
  rewrite string_of_uint_pos.
  destruct (to_uint_head p) as (c & t & Ec & Hd & _).
  exists c, t. split; [exact Ec | now apply digit_starts_value].
Qed.

Lemma skip_ws_value (c : ascii) (t : string) :
  starts_value c = true -> skip_ws (String c t) = String c t.
Proof.
  intros H. simpl. unfold starts_value in H.
  destruct (is_ws c); [discriminate H | reflexivity].
Qed.

Lemma scan_value_number (f : nat) (c : ascii) (t : string) :
  (is_digit c || (c =? "-")%char) = true ->
  scan_value (S f) (String c t)
  = match scan_number (String c t) with
    | Some (z, t') => Some (JNum z, t')
    | None => None
    end.
Proof.
  each_char c; intros H; solve [reflexivity | discriminate H].
Qed.

Lemma scan_value_array (f : nat) (c : ascii) (t : string) :
  starts_value c = true ->
  scan_value (S f) (String "[" (String c t))
  = match scan_items f (String c t) with
    | Some (l, t') => Some (JArr l, t')
    | None => None
    end.
Proof.
  each_char c; intros H; solve [reflexivity | discriminate H].
Qed.

Lemma scan_value_object (f : nat) (t : string) :
  scan_value (S f) (String "{" (String dquote t))
  = match scan_pairs f (String dquote t) with
    | Some (l, t') => Some (JObj l, t')
    | None => None
    end.
Proof. reflexivity. Qed.

Lemma scan_items_eq (f : nat) (s : string) :
  scan_items (S f) s
  = match scan_value f s with
    | None => None
    | Some (x, t) =>
        match skip_ws t with
        | String "]" t1 => Some ([x], t1)
        | String "," t1 =>
            match scan_items f (skip_ws t1) with
            | Some (l, t2) => Some (x :: l, t2)
            | None => None
            end
        | _ => None
        end
    end.
Proof. reflexivity. Qed.

Lemma scan_pairs_eq (f : nat) (r : string) :
  scan_pairs (S f) (String dquote r)
  = match scan_string r with
    | None => None
    | Some (k, t) =>
        match skip_ws t with
        | String ":" t1 =>
            match scan_value f (skip_ws t1) with
            | None => None
            | Some (x, t2) =>
                match skip_ws t2 with
                | String "}" t3 => Some ([(k, x)], t3)
                | String "," t3 =>
                    match scan_pairs f (skip_ws t3) with
                    | Some (l, t4) => Some ((k, x) :: l, t4)
                    | None => None
                    end
                | _ => None
                end
            end
        | _ => None
        end
    end.
Proof. reflexivity. Qed.

Lemma skip_ws_dumps (v : json) (t : string) :
  skip_ws (json_dumps v ++ t) = json_dumps v ++ t.
Proof.
  destruct (dumps_head v) as (c & u & E & H). rewrite E.
  apply (skip_ws_value c (u ++ t) H).
Qed.

Lemma append_nil_r (a : string) : a ++ "" = a.
Proof. induction a as [|x a IH]; simpl; [reflexivity | now rewrite IH]. Qed.

Lemma skip_ws_concat (y : json) (l : list json) (t : string) :
  skip_ws (String.concat ", " (map json_dumps (y :: l)) ++ t)
  = String.concat ", " (map json_dumps (y :: l)) ++ t.
Proof.
  destruct l as [|z l].
  - apply skip_ws_dumps.
  - change (String.concat ", " (map json_dumps (y :: z :: l)))
      with (json_dumps y ++ ", " ++ String.concat ", " (map json_dumps (z :: l))).
    rewrite append_assoc. apply skip_ws_dumps.
Qed.

Lemma scan_items_dumps (l : list json) :
  l <> [] -> Forall decodes l ->
  forall (fuel : nat) (rest : string),
    (list_sum (map (fun x => S (weight x)) l) <= fuel)%nat ->
    scan_items fuel (String.concat ", " (map json_dumps l) ++ String "]" rest)
    = Some (l, rest).
Proof.
  induction l as [|x l IH]; [congruence|].
  intros _ Hall fuel rest Hf.
  inversion Hall as [|? ? Hx Hl]; subst.
  simpl in Hf. destruct fuel as [|f]; [lia|].
  rewrite scan_items_eq.
  destruct l as [|y l].
  - simpl. rewrite (Hx f (String "]" rest)) by (simpl in *; try lia; reflexivity).
    reflexivity.
  - change (String.concat ", " (map json_dumps (x :: y :: l)))
      with (json_dumps x ++ ", " ++ String.concat ", " (map json_dumps (y :: l))).
    rewrite !append_assoc.
    rewrite (Hx f) by (simpl in *; try lia; reflexivity).
    set (Z := String.concat ", " (map json_dumps (y :: l)) ++ String "]" rest).
    change (", " ++ Z) with (String "," (String " " Z)).
    change (skip_ws (String "," (String " " Z))) with (String "," (String " " Z)).
    cbv iota. change (skip_ws (String " " Z)) with (skip_ws Z).
    subst Z. rewrite skip_ws_concat.
    rewrite IH; [reflexivity | discriminate | exact Hl | simpl in *; lia].
Qed.

Lemma encode_pair_app (k x t : string) :
  encode_pair k x ++ t
  = String dquote (escape k ++ String dquote (String ":" (String " " (x ++ t)))).
Proof.
  unfold encode_pair, encode_str. simpl. rewrite !append_assoc. reflexivity.
Qed.

Lemma concat_pairs_head (kv : string * json) (l : list (string * json)) (t : string) :
  exists u, String.concat ", " (map dumps_pair (kv :: l)) ++ t = String dquote u.
Proof.
  destruct kv as [k x]. destruct l as [|z l].
  - change (String.concat ", " (map dumps_pair [(k, x)]))
      with (encode_pair k (json_dumps x)).
    rewrite encode_pair_app. eexists; reflexivity.
  - change (String.concat ", " (map dumps_pair ((k, x) :: z :: l)))
      with (encode_pair k (json_dumps x) ++ ", "
            ++ String.concat ", " (map dumps_pair (z :: l))).
    rewrite encode_pair_app. eexists; reflexivity.
Qed.

Lemma scan_pairs_dumps (kvs : list (string * json)) :
  kvs <> [] -> Forall (fun kv => decodes (snd kv)) kvs ->
  forall (fuel : nat) (rest : string),
    (list_sum (map (fun kv => match kv with (_, x) => S (weight x) end) kvs)
     <= fuel)%nat ->
    scan_pairs fuel (String.concat ", " (map dumps_pair kvs) ++ String "}" rest)
    = Some (kvs, rest).
Proof.
  induction kvs as [|[k x] l IH]; [congruence|].
  intros _ Hall fuel rest Hf.
  inversion Hall as [|? ? Hx Hl]; subst. simpl in Hx.
  simpl in Hf. destruct fuel as [|f]; [lia|].
  destruct l as [|y l].
  - change (String.concat ", " (map dumps_pair [(k, x)]))
      with (encode_pair k (json_dumps x)).
    rewrite encode_pair_app, scan_pairs_eq, scan_string_escape.
    change (skip_ws (String ":" ?z)) with (String ":" z). cbv iota.
    change (skip_ws (String " " ?z)) with (skip_ws z).
    rewrite skip_ws_dumps.
    rewrite (Hx f (String "}" rest)) by (simpl in *; try lia; reflexivity).
    reflexivity.
  - change (String.concat ", " (map dumps_pair ((k, x) :: y :: l)))
      with (encode_pair k (json_dumps x) ++ ", "
            ++ String.concat ", " (map dumps_pair (y :: l))).
    rewrite !append_assoc.
    set (Z := String.concat ", " (map dumps_pair (y :: l)) ++ String "}" rest).
    rewrite encode_pair_app, scan_pairs_eq, scan_string_escape.
    change (skip_ws (String ":" ?z)) with (String ":" z). cbv iota.
    change (skip_ws (String " " ?z)) with (skip_ws z).
    rewrite skip_ws_dumps.
    rewrite (Hx f) by (simpl in *; try lia; reflexivity).
    change (", " ++ Z) with (String "," (String " " Z)).
    change (skip_ws (String "," (String " " Z))) with (String "," (String " " Z)).
    cbv iota. change (skip_ws (String " " Z)) with (skip_ws Z).
    destruct (concat_pairs_head y l (String "}" rest)) as [u Hu].
    assert (Hz : skip_ws Z = Z) by (subst Z; rewrite Hu; reflexivity).
    rewrite Hz. subst Z.
    rewrite IH; [reflexivity | discriminate | exact Hl | simpl in *; lia].
Qed.

Theorem scan_value_dumps (v : json) : decodes v.
Proof.
  induction v as [| b | z | s | l IH | kvs IH] using json_ind';
    intros fuel rest Hf Hs; simpl in Hf;
    (destruct fuel as [|f]; [lia|]).
  - reflexivity.
  - destruct b; reflexivity.
  - simpl json_dumps.
    assert (H : exists c t, encode_int z = String c t
                            /\ (is_digit c || (c =? "-")%char) = true).
    { unfold encode_int. destruct z as [|p|p]; simpl;
        try (eexists _, _; split; reflexivity).
      rewrite string_of_uint_pos.
      destruct (to_uint_head p) as (c & t & Ec & Hd & _).
      exists c, t. split; [exact Ec | now rewrite Hd]. }
    destruct H as (c & t & Ec & Hc).
    pose proof (scan_number_encode_int z rest Hs) as Hn.
    rewrite Ec in *. simpl append in *.
    rewrite (scan_value_number f c _ Hc), Hn. reflexivity.
  - simpl json_dumps. unfold encode_str.
    change (String dquote (escape s ++ String dquote "") ++ rest)
      with (String dquote ((escape s ++ String dquote "") ++ rest)).
    rewrite append_assoc.
    change (String dquote "" ++ rest) with (String dquote rest).
    change (scan_value (S f) (String dquote (escape s ++ String dquote rest)))
      with (match scan_string (escape s ++ String dquote rest) with
            | Some (x, t) => Some (JStr x, t)
            | None => None
            end).
    rewrite scan_string_escape. reflexivity.
  - simpl json_dumps.
    change (String "[" (String.concat ", " (map json_dumps l) ++ "]") ++ rest)
      with (String "[" ((String.concat ", " (map json_dumps l) ++ "]") ++ rest)).
    rewrite append_assoc. change ("]" ++ rest) with (String "]" rest).
    destruct l as [|x l]; [reflexivity|].
    assert (H : exists c t,
               String.concat ", " (map json_dumps (x :: l)) ++ String "]" rest
               = String c t /\ starts_value c = true).
    { destruct (dumps_head x) as (c & t & E & H).
      destruct l as [|y l].
      - simpl. rewrite E. eexists _, _; split; [reflexivity | exact H].
      - change (String.concat ", " (map json_dumps (x :: y :: l)))
          with (json_dumps x ++ ", "
                ++ String.concat ", " (map json_dumps (y :: l))).
        rewrite E. eexists _, _; split; [reflexivity | exact H]. }
    destruct H as (c & t & E & H).
    pose proof (scan_items_dumps (x :: l) ltac:(discriminate) IH f rest
                  ltac:(simpl in *; lia)) as Hi.
    rewrite E in *. rewrite (scan_value_array f c t H), Hi. reflexivity.
  - simpl json_dumps.
    change (map (fun kv : string * json =>
                   let (k, x) := kv in encode_pair k (json_dumps x)) kvs)
      with (map dumps_pair kvs).
    change (String "{" (String.concat ", " (map dumps_pair kvs) ++ "}") ++ rest)
      with (String "{" ((String.concat ", " (map dumps_pair kvs) ++ "}") ++ rest)).
    rewrite append_assoc. change ("}" ++ rest) with (String "}" rest).
    destruct kvs as [|kv l]; [reflexivity|].
    destruct (concat_pairs_head kv l (String "}" rest)) as [u Hu].
    pose proof (scan_pairs_dumps (kv :: l) ltac:(discriminate) IH f rest
                  ltac:(simpl in *; lia)) as Hi.
    rewrite Hu in *. rewrite scan_value_object, Hi. reflexivity.
Qed.

Lemma weight_le_length (v : json) :
  (weight v <= String.length (json_dumps v))%nat.
Proof.
  induction v as [| b | z | s | l IH | kvs IH] using json_ind'.
  - simpl. lia.
  - destruct b; simpl; lia.
  - destruct (dumps_head (JNum z)) as (c & t & E & _). rewrite E. simpl. lia.
  - simpl. lia.
  - simpl json_dumps. simpl weight.
    change (String.length (String "[" ?x)) with (S (String.length x)).
    rewrite length_append. simpl String.length.
    assert (H : (list_sum (map (fun x => S (weight x)) l)
                 <= 1 + String.length (String.concat ", " (map json_dumps l)))%nat).
    { induction l as [|x l IHl]; [simpl; lia|].
      inversion IH as [|? ? Hx Hl]; subst. specialize (IHl Hl).
      destruct l as [|y l].
      - simpl in *. lia.
      - change (String.concat ", " (map json_dumps (x :: y :: l)))
          with (json_dumps x ++ ", "
                ++ String.concat ", " (map json_dumps (y :: l))).
        rewrite !length_append.
        change (map (fun x0 => S (weight x0)) (x :: y :: l))
          with (S (weight x) :: map (fun x0 => S (weight x0)) (y :: l)).
        change (list_sum (S (weight x) :: ?r)) with (S (weight x) + list_sum r)%nat.
        change (String.length ", ") with 2%nat. lia. }
    lia.
  - simpl json_dumps. simpl weight.
    change (map (fun kv : string * json =>
                   let (k, x) := kv in encode_pair k (json_dumps x)) kvs)
      with (map dumps_pair kvs).
    change (String.length (String "{" ?x)) with (S (String.length x)).
    rewrite length_append. simpl String.length.
    assert (H : (list_sum (map (fun kv : string * json =>
                                  match kv with (_, x) => S (weight x) end) kvs)
                 <= 1 + String.length (String.concat ", " (map dumps_pair kvs)))%nat).
    { induction kvs as [|[k x] l IHl]; [simpl; lia|].
      inversion IH as [|? ? Hx Hl]; subst. specialize (IHl Hl). simpl in Hx.
      assert (Hp : (weight x <= String.length (encode_pair k (json_dumps x)))%nat).
      { unfold encode_pair. rewrite !length_append. lia. }
      destruct l as [|y l].
      - change (String.concat ", " (map dumps_pair [(k, x)]))
          with (encode_pair k (json_dumps x)).
        simpl list_sum. lia.
      - change (String.concat ", " (map dumps_pair ((k, x) :: y :: l)))
          with (encode_pair k (json_dumps x) ++ ", "
                ++ String.concat ", " (map dumps_pair (y :: l))).
        rewrite !length_append.
        set (g := fun kv : string * json => match kv with (_, x0) => S (weight x0) end) in *.
        change (map g ((k, x) :: y :: l)) with (S (weight x) :: map g (y :: l)).
        change (list_sum (S (weight x) :: ?r)) with (S (weight x) + list_sum r)%nat.
        change (String.length ", ") with 2%nat. lia. }
    lia.
Qed.

(** Decoding what [json.dumps] wrote gives the value back. *)
Theorem json_loads_dumps (v : json) : json_loads (json_dumps v) = Some v.
Proof.
  unfold json_loads.
  rewrite <- (append_nil_r (json_dumps v)) at 2.
  rewrite skip_ws_dumps, append_nil_r.
  pose proof (scan_value_dumps v (S (String.length (json_dumps v))) ""
                ltac:(pose proof (weight_le_length v); lia) eq_refl) as H.
  rewrite append_nil_r in H. rewrite H. reflexivity.
Qed.

Local Open Scope handler_scope.

(** ** The decorator [requires_auth] *)

Section AuthFacts.

Variable jwt_decode : string -> JwtOutcome.

(** The decorated function runs on the claims when the three checks pass,
    and not at all when one of them raises. *)
Lemma requires_auth_authenticate {A : Type} (permission : string)
  (f : Claims -> M A) (req : Request) (s : Store) :
  requires_auth jwt_decode permission f req s
  = match authenticate jwt_decode permission req with
    | Ok payload => f payload s
    | Raise e => (Raise e, s)
    end.
Proof.
  unfold requires_auth, authenticate, bind, lift, rbind.
  destruct (get_token_auth_header req) as [token|e]; [|reflexivity].
  destruct (verify_decode_jwt jwt_decode token) as [payload|e]; [|reflexivity].
  destruct (check_permissions permission payload) as [[]|e]; reflexivity.
Qed.

Lemma header_failure (req : Request) (x : exn) :
  get_token_auth_header req = Raise x ->
  exists code description,
    x = RaisedAuthError (auth_failure code description).
Proof.
  unfold get_token_auth_header. intros H.
  repeat match type of H with
         | Raise _ = Raise _ => injection H as <-; eexists _, _; reflexivity
         | Ok _ = Raise _ => discriminate H
         | context [match ?t with _ => _ end] => destruct t
         | context [if ?t then _ else _] => destruct t
         end.
Qed.

Lemma verifier_failure (token : string) (x : exn) :
  verify_decode_jwt jwt_decode token = Raise x ->
  exists code description,
    x = RaisedAuthError (auth_failure code description).
Proof.
  unfold verify_decode_jwt. intros H.
  destruct (jwt_decode token); try discriminate H;
    injection H as <-; eexists _, _; reflexivity.
Qed.

Lemma authorizer_failure (permission : string) (payload : Claims) (x : exn) :
  check_permissions permission payload = Raise x ->
  exists code description,
    x = RaisedAuthError (auth_failure code description).
Proof.
  unfold check_permissions. intros H.
  destruct (permissions payload) as [granted|].
  - destruct (existsb (String.eqb permission) granted); [discriminate H|].
    injection H as <-; eexists _, _; reflexivity.
  - injection H as <-; eexists _, _; reflexivity.
Qed.

Lemma authenticate_failure (permission : string) (req : Request) (x : exn) :
  authenticate jwt_decode permission req = Raise x ->
  exists code description,
    x = RaisedAuthError (auth_failure code description).
Proof.
  unfold authenticate, rbind. intros H.
  destruct (get_token_auth_header req) as [token|e] eqn:E1.
  - destruct (verify_decode_jwt jwt_decode token) as [payload|e] eqn:E2.
    + destruct (check_permissions permission payload) as [[]|e] eqn:E3.
      * discriminate H.
      * injection H as <-. eapply authorizer_failure; eassumption.
    + injection H as <-. eapply verifier_failure; eassumption.
  - injection H as <-. eapply header_failure; eassumption.
Qed.

Lemma existsb_eqb_In (x : string) (l : list string) :
  existsb (String.eqb x) l = true <-> In x l.
Proof.
  rewrite existsb_exists. split.
  - intros (y & Hy & E). apply String.eqb_eq in E. now subst.
  - intros H. exists x. split; [exact H | apply String.eqb_refl].
Qed.

Lemma denied_authenticate (scope : string) (req : Request) :
  denied jwt_decode scope req ->
  exists x, authenticate jwt_decode scope req = Raise x.
Proof.
  unfold authenticate, rbind.
  intros [H | token H E | token claims granted H E Hp Hin].
  - unfold get_token_auth_header. rewrite H. eexists; reflexivity.
  - rewrite H. unfold verify_decode_jwt. rewrite E. eexists; reflexivity.
  - rewrite H. unfold verify_decode_jwt. rewrite E.
    unfold check_permissions. rewrite Hp.
    destruct (existsb (String.eqb scope) granted) eqn:Ex.
    + apply existsb_eqb_In in Ex. contradiction.
    + eexists; reflexivity.
Qed.

(** The view function of a route is the handler behind its scope. *)
Lemma url_map_gated (req : Request) (scope : string) (s : Store) (x : exn) :
  required_scope req = Some scope ->
  authenticate jwt_decode scope req = Raise x ->
  url_map jwt_decode req s = (Raise x, s).
Proof.
  unfold required_scope, url_map. intros Hr Ha.
  destruct (path req), (method req); try discriminate Hr;
    injection Hr as <-; rewrite requires_auth_authenticate, Ha; reflexivity.
Qed.

(** C1. Auth gating.  On each of the five routes, a request with no
    [Authorization] header, with an expired token, or with a token that lacks
    the scope of the route is answered 401 with [success] false, and the
    store comes back as it was: no row was read or written and no operation
    reached the storage layer. *)
Theorem auth_gating (req : Request) (scope : string) (s : Store) :
  required_scope req = Some scope ->
  denied jwt_decode scope req ->
  exists r,
    serve jwt_decode req s = (r, s)
    /\ status r = 401
    /\ field "success" (body r) = Some (JBool false)
    /\ error_envelope r.
Proof.
  intros Hr Hd.
  destruct (denied_authenticate scope req Hd) as [x Hx].
  destruct (authenticate_failure scope req x Hx) as (code & description & ->).
  unfold serve. rewrite (url_map_gated req scope s _ Hr Hx).
  eexists. split; [reflexivity|]. simpl.
  repeat split. eexists. reflexivity.
Qed.

(** C9. The handler of [AuthError] relays the failure as it is.  Every
    failure that the token verifier or the scope authorizer raises has a
    description; and for every failure that has one, whatever its status
    code, the response has the failure's [status_code] as its HTTP status and
    as its [error] field, [success] false, and the failure's description as
    its [message]. *)
Theorem auth_error_relays (e : AuthError) :
  raised_by_auth jwt_decode e
  \/ (exists description, assoc "description" (error e) = Some description) ->
  exists description,
    assoc "description" (error e) = Some description
    /\ auth_error e
       = Ok (mkResponse (JObj [("success", JBool false);
                               ("error", JNum (status_code e));
                               ("message", JStr description)])
                        (status_code e))
    /\ handle_exception (RaisedAuthError e)
       = mkResponse (JObj [("success", JBool false);
                           ("error", JNum (status_code e));
                           ("message", JStr description)])
                    (status_code e).
Proof.
  intros [H | [description H]].
  - assert (Hf : exists code description, e = auth_failure code description).
    { destruct H as [req H | token H | permission payload H].
      - destruct (header_failure _ _ H) as (c & d & E).
        injection E as ->. eauto.
      - destruct (verifier_failure _ _ H) as (c & d & E).
        injection E as ->. eauto.
      - destruct (authorizer_failure _ _ _ H) as (c & d & E).
        injection E as ->. eauto. }
    destruct Hf as (code & description & ->).
    exists description. repeat split.
  - exists description. unfold handle_exception, auth_error. rewrite H.
    repeat split.
Qed.

End AuthFacts.

(** ** The handlers behind the decorator *)

Section Handlers.

Variable jwt_decode : string -> JwtOutcome.

(** What [serve] makes of the outcome of a view function. *)
Lemma serve_post (req : Request) (payload : Claims) (s : Store) :
  path req = PathDrinks -> method req = POST ->
  authenticate jwt_decode "post:drinks" req = Ok payload ->
  serve jwt_decode req s
  = match create_drink req payload s with
    | (Ok r, s') => (r, s')
    | (Raise e, s') => (handle_exception e, s')
    end.
Proof.
  intros Hp Hm Ha. unfold serve, url_map. rewrite Hp, Hm.
  rewrite requires_auth_authenticate, Ha. reflexivity.
Qed.

Lemma serve_patch (req : Request) (k : Z) (payload : Claims) (s : Store) :
  path req = PathDrinkId k -> method req = PATCH ->
  authenticate jwt_decode "patch:drinks" req = Ok payload ->
  serve jwt_decode req s
  = match update_drink req k payload s with
    | (Ok r, s') => (r, s')
    | (Raise e, s') => (handle_exception e, s')
    end.
Proof.
  intros Hp Hm Ha. unfold serve, url_map. rewrite Hp, Hm.
  rewrite requires_auth_authenticate, Ha. reflexivity.
Qed.

Lemma serve_delete (req : Request) (k : Z) (payload : Claims) (s : Store) :
  path req = PathDrinkId k -> method req = DELETE ->
  authenticate jwt_decode "delete:drinks" req = Ok payload ->
  serve jwt_decode req s
  = match delete_drink k payload s with
    | (Ok r, s') => (r, s')
    | (Raise e, s') => (handle_exception e, s')
    end.
Proof.
  intros Hp Hm Ha. unfold serve, url_map. rewrite Hp, Hm.
  rewrite requires_auth_authenticate, Ha. reflexivity.
Qed.

End Handlers.

(** The full view of a row whose recipe [json.dumps] wrote. *)
Lemma long_dumps (k : Z) (t v : json) :
  DrinkModel.long (mkDrink k t (json_dumps v))
  = Ok (JObj [("id", JNum k); ("title", t); ("recipe", v)]).
Proof. unfold DrinkModel.long. simpl. rewrite json_loads_dumps. reflexivity. Qed.

(** [json.dumps] writes different texts for different values. *)
Lemma json_dumps_inj (v w : json) : json_dumps v = json_dumps w -> v = w.
Proof.
  intros H. pose proof (json_loads_dumps v) as Hv.
  rewrite H, json_loads_dumps in Hv. now injection Hv.
Qed.

Lemma json_eqb_refl (v : json) : json_eqb v v = true.
Proof.
  induction v as [| b | z | s | l IH | kvs IH] using json_ind'; simpl.
  - reflexivity.
  - apply Bool.eqb_reflx.
  - apply Z.eqb_refl.
  - apply String.eqb_refl.
  - induction IH as [|x l Hx _ IHl]; [reflexivity|].
    rewrite Hx. exact IHl.
  - induction IH as [|[k x] l Hx _ IHl]; [reflexivity|].
    simpl in Hx. rewrite String.eqb_refl, Hx. exact IHl.
Qed.

(** Replacing the rows of an id by the only row that has it changes nothing. *)
Lemma filter_singleton_eq {A : Type} (p : A -> bool) (l : list A) (d x : A) :
  filter p l = [d] -> In x l -> p x = true -> x = d.
Proof.
  intros Hf Hin Hp.
  assert (H : In x (filter p l)) by (apply filter_In; split; assumption).
  rewrite Hf in H. destruct H as [H|[]]. now symmetry.
Qed.

Lemma map_replace_same (k : Z) (l : list Drink) (d : Drink) :
  filter (fun x => id x =? k) l = [d] ->
  map (fun x => if id x =? k then d else x) l = l.
Proof.
  intros Hf. rewrite <- (map_id l) at 2. apply map_ext_in.
  intros x Hin. destruct (id x =? k) eqn:E; [|reflexivity].
  symmetry. exact (filter_singleton_eq _ l d x Hf Hin E).
Qed.

Lemma filter_singleton_id (k : Z) (l : list Drink) (d : Drink) :
  filter (fun x => id x =? k) l = [d] -> id d = k.
Proof.
  intros Hf.
  assert (H : In d (filter (fun x => id x =? k) l)) by (rewrite Hf; now left).
  apply filter_In in H as [_ H]. now apply Z.eqb_eq.
Qed.

(** *** [create_drink] *)

Lemma create_drink_try_run (b t r : json) (s : Store) :
  getitem b "recipe" = Ok r -> getitem b "title" = Ok t ->
  create_drink_try b s
  = if existsb (fun x => json_eqb (title x) t) (rows s)
    then (Raise IntegrityError, mkStore (rows s) (ops s ++ [OpInsert]))
    else (Ok (created t r s),
          mkStore (rows s ++ [created t r s]) (ops s ++ [OpInsert])).
Proof.
  intros Hr Ht. unfold create_drink_try, bind, lift. rewrite Hr, Ht.
  unfold DrinkModel.insert, bind, DrinkModel.log. simpl.
  destruct (existsb _ (rows s)); reflexivity.
Qed.

Lemma create_drink_try_no_recipe (b : json) (e : exn) (s : Store) :
  getitem b "recipe" = Raise e -> create_drink_try b s = (Raise e, s).
Proof.
  intros Hr. unfold create_drink_try, bind, lift. rewrite Hr. reflexivity.
Qed.

Lemma create_drink_try_no_title (b r : json) (e : exn) (s : Store) :
  getitem b "recipe" = Ok r -> getitem b "title" = Raise e ->
  create_drink_try b s = (Raise e, s).
Proof.
  intros Hr Ht. unfold create_drink_try, bind, lift. rewrite Hr, Ht. reflexivity.
Qed.

(** Every way the [try] block of [create_drink] can end. *)
Lemma create_drink_try_cases (b : json) (s : Store) :
  (exists e s1, create_drink_try b s = (Raise e, s1) /\ rows s1 = rows s)
  \/ (exists t r,
        getitem b "recipe" = Ok r /\ getitem b "title" = Ok t
        /\ existsb (fun x => json_eqb (title x) t) (rows s) = false
        /\ create_drink_try b s
           = (Ok (created t r s),
              mkStore (rows s ++ [created t r s]) (ops s ++ [OpInsert]))).
Proof.
  destruct (getitem b "recipe") as [r|e] eqn:Hr.
  - destruct (getitem b "title") as [t|e] eqn:Ht.
    + rewrite (create_drink_try_run b t r s Hr Ht).
      destruct (existsb _ (rows s)) eqn:Ex.
      * left. eexists _, _. split; reflexivity.
      * right. exists t, r. repeat split; assumption.
    + left. rewrite (create_drink_try_no_title b r e s Hr Ht).
      eexists _, _. split; reflexivity.
  - left. rewrite (create_drink_try_no_recipe b e s Hr).
    eexists _, _. split; reflexivity.
Qed.

(** [create_drink] on the two outcomes of its [try] block. *)
Lemma create_drink_raise (req : Request) (payload : Claims) (s s1 : Store)
  (e : exn) :
  create_drink_try (get_json req) s = (Raise e, s1) ->
  create_drink req payload s = (Raise (HTTPException 400), s1).
Proof.
  intros H. unfold create_drink, bind, try_except. rewrite H. reflexivity.
Qed.

Lemma create_drink_ok (req : Request) (payload : Claims) (s : Store)
  (t r : json) :
  create_drink_try (get_json req) s
  = (Ok (created t r s),
     mkStore (rows s ++ [created t r s]) (ops s ++ [OpInsert])) ->
  create_drink req payload s
  = (Ok (mkResponse
           (JObj [("success", JBool true);
                  ("drinks",
                   JArr [JObj [("id", JNum (DrinkModel.fresh_id (rows s)));
                               ("title", t);
                               ("recipe", if is_dict r then JArr [r] else r)]])])
           200),
     mkStore (rows s ++ [created t r s]) (ops s ++ [OpInsert])).
Proof.
  intros H. unfold create_drink, bind, try_except, lift. rewrite H.
  unfold created. rewrite long_dumps. reflexivity.
Qed.

Section Create.

Variable jwt_decode : string -> JwtOutcome.

(** A create request answers 200 after adding one row, or 400 with the table
    as it was. *)
Lemma create_outcomes (req : Request) (payload : Claims) (s : Store) :
  path req = PathDrinks -> method req = POST ->
  authenticate jwt_decode "post:drinks" req = Ok payload ->
  exists r s',
    serve jwt_decode req s = (r, s')
    /\ ((r = bad_request /\ rows s' = rows s)
        \/ (status r = 200
            /\ exists t v,
                getitem (get_json req) "title" = Ok t
                /\ getitem (get_json req) "recipe" = Ok v
                /\ rows s' = (rows s ++ [created t v s])%list)).
Proof.
  intros Hp Hm Ha. rewrite (serve_post jwt_decode req payload s Hp Hm Ha).
  destruct (create_drink_try_cases (get_json req) s)
    as [(e & s1 & H & Hrows) | (t & r & Hr & Ht & Hex & H)].
  - rewrite (create_drink_raise req payload s s1 e H).
    eexists _, _. split; [reflexivity|]. left. split; [reflexivity | exact Hrows].
  - rewrite (create_drink_ok req payload s t r H).
    eexists _, _. split; [reflexivity|]. right. split; [reflexivity|].
    exists t, r. repeat split; assumption.
Qed.

(** C6. Every exception of the [try] block of the create operation is turned
    into the bad-request envelope with status 400, and then no item is
    persisted; a create request is answered 200 or 400, never 500; and after a
    successful create, a second create with the same title fails with the
    bad-request envelope and leaves the table, the first item included, as it
    was. *)
Theorem create_failures_are_bad_requests
  (req : Request) (payload : Claims) (s : Store) :
  path req = PathDrinks -> method req = POST ->
  authenticate jwt_decode "post:drinks" req = Ok payload ->
  (forall e s1,
      create_drink_try (get_json req) s = (Raise e, s1) ->
      serve jwt_decode req s = (bad_request, s1) /\ rows s1 = rows s)
  /\ (exists r s',
         serve jwt_decode req s = (r, s')
         /\ ((r = bad_request /\ error_envelope r /\ rows s' = rows s)
             \/ (status r = 200 /\ exists d, rows s' = (rows s ++ [d])%list)))
  /\ (forall r s' t,
         serve jwt_decode req s = (r, s') -> status r = 200 ->
         getitem (get_json req) "title" = Ok t ->
         (exists d, In d (rows s') /\ title d = t)
         /\ forall req2 payload2,
             path req2 = PathDrinks -> method req2 = POST ->
             authenticate jwt_decode "post:drinks" req2 = Ok payload2 ->
             getitem (get_json req2) "title" = Ok t ->
             exists s2,
               serve jwt_decode req2 s' = (bad_request, s2)
               /\ rows s2 = rows s').
Proof.
  intros Hp Hm Ha. split; [|split].
  - intros e s1 H. rewrite (serve_post jwt_decode req payload s Hp Hm Ha).
    rewrite (create_drink_raise req payload s s1 e H). split; [reflexivity|].
    destruct (create_drink_try_cases (get_json req) s)
      as [(e' & s1' & H' & Hrows) | (t & r & _ & _ & _ & H')];
      rewrite H in H'; [|discriminate H'].
    injection H' as _ <-. exact Hrows.
  - destruct (create_outcomes req payload s Hp Hm Ha)
      as (r & s' & Hs & [[-> Hrows] | [H200 (t & v & _ & _ & Hrows)]]).
    + exists bad_request, s'. split; [exact Hs|]. left.
      split; [reflexivity|]. split; [eexists; reflexivity | exact Hrows].
    + exists r, s'. split; [exact Hs|]. right. split; [exact H200|].
      eexists. exact Hrows.
  - intros r s' t Hs H200 Ht.
    destruct (create_outcomes req payload s Hp Hm Ha) as (r0 & s0 & Hs0 & Hcase).
    rewrite Hs in Hs0. injection Hs0 as E1 E2. subst r0 s0.
    destruct Hcase as [[-> Hrows] | [_ (t' & v & Ht' & _ & Hrows)]];
      [discriminate H200|].
    rewrite Ht in Ht'. injection Ht' as <-.
    assert (Hin : In (created t v s) (rows s')).
    { rewrite Hrows. apply in_or_app. right. now left. }
    split; [exists (created t v s); split; [exact Hin | reflexivity]|].
    intros req2 payload2 Hp2 Hm2 Ha2 Ht2.
    rewrite (serve_post jwt_decode req2 payload2 s' Hp2 Hm2 Ha2).
    assert (Hraise : exists e s2,
               create_drink_try (get_json req2) s' = (Raise e, s2)
               /\ rows s2 = rows s').
    { destruct (getitem (get_json req2) "recipe") as [v2|e] eqn:Hr2.
      - rewrite (create_drink_try_run _ t v2 s' Hr2 Ht2).
        assert (Hex : existsb (fun x => json_eqb (title x) t) (rows s') = true).
        { apply existsb_exists. exists (created t v s).
          split; [exact Hin | apply json_eqb_refl]. }
        rewrite Hex. eexists _, _. split; reflexivity.
      - rewrite (create_drink_try_no_recipe _ e s' Hr2).
        eexists _, _. split; reflexivity. }
    destruct Hraise as (e & s2 & H & Hrows2).
    rewrite (create_drink_raise req2 payload2 s' s2 e H).
    exists s2. split; [reflexivity | exact Hrows2].
Qed.

(** The part of the recipe normalization that holds: a create request with a
    single recipe entry is served exactly as the one with that entry in a
    list, response and store alike. *)
Lemma create_normalizes_single_entry
  (hdr : option string) (t : json) (entry : list (string * json)) (s : Store) :
  serve jwt_decode
        (mkRequest POST PathDrinks hdr
                   (JObj [("title", t); ("recipe", JObj entry)])) s
  = serve jwt_decode
          (mkRequest POST PathDrinks hdr
                     (JObj [("title", t); ("recipe", JArr [JObj entry])])) s.
Proof.
  set (req1 := mkRequest POST PathDrinks hdr
                         (JObj [("title", t); ("recipe", JObj entry)])).
  set (req2 := mkRequest POST PathDrinks hdr
                         (JObj [("title", t); ("recipe", JArr [JObj entry])])).
  assert (Ha : authenticate jwt_decode "post:drinks" req1
               = authenticate jwt_decode "post:drinks" req2) by reflexivity.
  destruct (authenticate jwt_decode "post:drinks" req2) as [payload|e] eqn:E.
  - rewrite (serve_post jwt_decode req1 payload s eq_refl eq_refl Ha).
    rewrite (serve_post jwt_decode req2 payload s eq_refl eq_refl E).
    unfold create_drink, bind, try_except, lift.
    rewrite (create_drink_try_run (get_json req1) t (JObj entry) s eq_refl eq_refl).
    rewrite (create_drink_try_run (get_json req2) t (JArr [JObj entry]) s
               eq_refl eq_refl).
    reflexivity.
  - unfold serve.
    rewrite (url_map_gated jwt_decode req1 "post:drinks" s e eq_refl Ha).
    rewrite (url_map_gated jwt_decode req2 "post:drinks" s e eq_refl E).
    reflexivity.
Qed.

(** C7, as amended.  The title is required: a create request whose body has
    no title fails with the bad-request envelope and persists nothing.  An
    empty title is a title like any other: the item is persisted under it
    unless a stored item has it already. *)
Theorem create_requires_title
  (req : Request) (payload : Claims) (s : Store) :
  path req = PathDrinks -> method req = POST ->
  authenticate jwt_decode "post:drinks" req = Ok payload ->
  (forall e,
      getitem (get_json req) "title" = Raise e ->
      fst (serve jwt_decode req s) = bad_request /\ create_fails jwt_decode req s)
  /\ (forall v,
         getitem (get_json req) "title" = Ok (JStr "") ->
         getitem (get_json req) "recipe" = Ok v ->
         existsb (fun x => json_eqb (title x) (JStr "")) (rows s) = false ->
         status (fst (serve jwt_decode req s)) = 200
         /\ rows (snd (serve jwt_decode req s))
            = (rows s ++ [created (JStr "") v s])%list).
Proof.
  intros Hp Hm Ha. rewrite (serve_post jwt_decode req payload s Hp Hm Ha).
  unfold create_fails. rewrite (serve_post jwt_decode req payload s Hp Hm Ha).
  split.
  - intros e Ht.
    assert (H : exists e', create_drink_try (get_json req) s = (Raise e', s)).
    { destruct (getitem (get_json req) "recipe") as [v|e'] eqn:Hr.
      - exists e. now apply (create_drink_try_no_title _ v).
      - exists e'. now apply create_drink_try_no_recipe. }
    destruct H as [e' H].
    rewrite (create_drink_raise req payload s s e' H). simpl.
    repeat split. discriminate.
  - intros v Ht Hr Hex.
    pose proof (create_drink_try_run _ _ _ s Hr Ht) as H. rewrite Hex in H.
    rewrite (create_drink_ok req payload s _ _ H). split; reflexivity.
Qed.

End Create.

(** *** [update_drink] and [delete_drink] *)

Lemma query_one_or_none_run (k : Z) (s : Store) :
  DrinkModel.query_one_or_none k s
  = (match rows_with k s with
     | [] => Ok None
     | [d] => Ok (Some d)
     | _ :: _ :: _ => Raise MultipleResultsFound
     end,
     mkStore (rows s) (ops s ++ [OpQueryById k])).
Proof.
  unfold DrinkModel.query_one_or_none, bind, DrinkModel.log, rows_with. simpl.
  destruct (filter _ (rows s)) as [|d [|d' l]]; reflexivity.
Qed.

Lemma get_submitted (kvs : list (string * json)) (key : string) :
  get (JObj kvs) key = Ok (submitted (JObj kvs) key).
Proof. unfold submitted, get. destruct (assoc key kvs); reflexivity. Qed.

Lemma getitem_truthy (kvs : list (string * json)) (key : string) :
  truthy (submitted (JObj kvs) key) = true ->
  getitem (JObj kvs) key = Ok (submitted (JObj kvs) key).
Proof.
  unfold submitted, get, getitem.
  destruct (assoc key kvs); [reflexivity | discriminate].
Qed.

Lemma update_drink_try_not_dict (b : json) (d : Drink) (s : Store) :
  (forall kvs, b <> JObj kvs) ->
  update_drink_try b d s = (Raise AttributeError, s).
Proof.
  intros H. unfold update_drink_try, bind, lift.
  destruct b; try reflexivity. exfalso. now apply (H kvs).
Qed.

(** The [try] block of [update_drink] on a dict: the instance becomes the
    patched row, and [update] writes it unless its new title clashes. *)
Lemma update_drink_try_dict (kvs : list (string * json)) (d : Drink) (s : Store) :
  update_drink_try (JObj kvs) d s
  = match DrinkModel.update (patched (JObj kvs) d) s with
    | (Ok _, s1) => (Ok (patched (JObj kvs) d), s1)
    | (Raise e, s1) => (Raise e, s1)
    end.
Proof.
  destruct d as [k t r].
  unfold update_drink_try, bind, lift, ret. rewrite !get_submitted.
  unfold patched, DrinkModel.set_title, DrinkModel.set_recipe.
  destruct (truthy (submitted (JObj kvs) "recipe")) eqn:Er.
  - rewrite (getitem_truthy kvs "recipe" Er).
    destruct (truthy (submitted (JObj kvs) "title")); simpl;
      match goal with
      | |- context [DrinkModel.update ?x s] =>
          destruct (DrinkModel.update x s) as [[[]|e] s1]; reflexivity
      end.
  - destruct (truthy (submitted (JObj kvs) "title")); simpl;
      match goal with
      | |- context [DrinkModel.update ?x s] =>
          destruct (DrinkModel.update x s) as [[[]|e] s1]; reflexivity
      end.
Qed.

Lemma update_cases (dnew : Drink) (s : Store) :
  (exists e, DrinkModel.update dnew s
             = (Raise e, mkStore (rows s) (ops s ++ [OpUpdate (id dnew)])))
  \/ DrinkModel.update dnew s
     = (Ok tt, mkStore (map (fun r => if id r =? id dnew then dnew else r) (rows s))
                       (ops s ++ [OpUpdate (id dnew)])).
Proof.
  unfold DrinkModel.update, bind, DrinkModel.log. simpl.
  destruct (existsb _ (rows s) && existsb _ (rows s)).
  - left. eexists. reflexivity.
  - right. reflexivity.
Qed.

(** An instance that keeps the title of its row is written back. *)
Lemma update_same_title (d dnew : Drink) (s : Store) :
  rows_with (id d) s = [d] -> id dnew = id d -> title dnew = title d ->
  DrinkModel.update dnew s
  = (Ok tt, mkStore (map (fun r => if id r =? id dnew then dnew else r) (rows s))
                    (ops s ++ [OpUpdate (id dnew)])).
Proof.
  intros Hd Hid Ht. unfold DrinkModel.update, bind, DrinkModel.log. simpl.
  assert (Hc : existsb (fun r => (id r =? id dnew)
                                 && negb (json_eqb (title r) (title dnew)))
                       (rows s) = false).
  { apply not_true_is_false. intros H. apply existsb_exists in H.
    destruct H as (x & Hin & Hx). apply andb_prop in Hx as [Hx1 Hx2].
    rewrite Hid in Hx1.
    rewrite (filter_singleton_eq _ (rows s) d x Hd Hin Hx1) in Hx2.
    rewrite Ht, json_eqb_refl in Hx2. discriminate Hx2. }
  rewrite Hc. reflexivity.
Qed.

Lemma patched_id (b : json) (d : Drink) : id (patched b d) = id d.
Proof. reflexivity. Qed.

Lemma patched_empty (d : Drink) : patched (JObj []) d = d.
Proof. destruct d. reflexivity. Qed.

Lemma patched_title_only (x : json) (d : Drink) :
  recipe (patched (JObj [("title", x)]) d) = recipe d.
Proof. reflexivity. Qed.

(** An update cannot make the title empty, nor the recipe an empty list. *)
Lemma patched_not_cleared (b : json) (d : Drink) :
  (title (patched b d) = JStr "" -> title d = JStr "")
  /\ (recipe (patched b d) = "[]" -> recipe d = "[]").
Proof.
  unfold patched. simpl. split.
  - destruct (truthy (submitted b "title")) eqn:E; [|tauto].
    intros H. rewrite H in E. discriminate E.
  - destruct (truthy (submitted b "recipe")) eqn:E; [|tauto].
    intros H. change "[]" with (json_dumps (JArr [])) in H.
    apply json_dumps_inj in H. rewrite H in E. discriminate E.
Qed.

Section Update.

Variable jwt_decode : string -> JwtOutcome.

(** The outcome of an update request on an id that one row has. *)
Lemma update_drink_found (req : Request) (k : Z) (payload : Claims)
  (s : Store) (d : Drink) :
  rows_with k s = [d] ->
  update_drink req k payload s
  = match update_drink_try (get_json req) d
            (mkStore (rows s) (ops s ++ [OpQueryById k])) with
    | (Ok dnew, s1) =>
        match DrinkModel.long dnew with
        | Ok view =>
            (Ok (mkResponse (JObj [("success", JBool true);
                                   ("drinks", JArr [view])]) 200), s1)
        | Raise e => (Raise e, s1)
        end
    | (Raise e, s1) => (Raise (HTTPException 400), s1)
    end.
Proof.
  intros Hd. unfold update_drink, bind. rewrite query_one_or_none_run, Hd.
  unfold try_except, lift, ret, abort, raise.
  destruct (update_drink_try _ d _) as [[dnew|e] s1]; [|reflexivity].
  destruct (DrinkModel.long dnew); reflexivity.
Qed.

(** An update request on an id that no row has. *)
Lemma update_drink_missing (req : Request) (k : Z) (payload : Claims) (s : Store) :
  rows_with k s = [] ->
  update_drink req k payload s
  = (Raise (HTTPException 404), mkStore (rows s) (ops s ++ [OpQueryById k])).
Proof.
  intros Hd. unfold update_drink, bind. rewrite query_one_or_none_run, Hd.
  reflexivity.
Qed.

Lemma delete_drink_missing (k : Z) (payload : Claims) (s : Store) :
  rows_with k s = [] ->
  delete_drink k payload s
  = (Raise (HTTPException 404), mkStore (rows s) (ops s ++ [OpQueryById k])).
Proof.
  intros Hd. unfold delete_drink, bind. rewrite query_one_or_none_run, Hd.
  reflexivity.
Qed.

Lemma delete_drink_found (k : Z) (payload : Claims) (s : Store) (d : Drink) :
  rows_with k s = [d] ->
  delete_drink k payload s
  = (Ok (mkResponse (JObj [("success", JBool true); ("delete", JNum k)]) 200),
     mkStore (filter (fun r => negb (id r =? k)) (rows s))
             (ops s ++ [OpQueryById k; OpDelete k])).
Proof.
  intros Hd. unfold delete_drink, bind. rewrite query_one_or_none_run, Hd.
  unfold try_except, DrinkModel.delete, bind, DrinkModel.log, ret. simpl.
  rewrite (filter_singleton_id k (rows s) d Hd), <- app_assoc. reflexivity.
Qed.

End Update.

Section Frame.

Variable jwt_decode : string -> JwtOutcome.

(** The outcome of an update request on an id that one row [d] has: the rows
    of that id become [d'], which is [d] itself or the patched row, and it is
    the patched row whenever the answer is 200. *)
Lemma update_outcome (req : Request) (k : Z) (payload : Claims)
  (s : Store) (d : Drink) :
  path req = PathDrinkId k -> method req = PATCH ->
  authenticate jwt_decode "patch:drinks" req = Ok payload ->
  rows_with k s = [d] ->
  exists r s' d',
    serve jwt_decode req s = (r, s')
    /\ (d' = d \/ d' = patched (get_json req) d)
    /\ rows s' = map (fun x => if id x =? k then d' else x) (rows s)
    /\ (status r = 200 -> d' = patched (get_json req) d)
    /\ (get_json req = JObj [] ->
        forall view, DrinkModel.long d = Ok view ->
        r = mkResponse (JObj [("success", JBool true);
                              ("drinks", JArr [view])]) 200).
Proof.
  intros Hp Hm Ha Hd.
  rewrite (serve_patch jwt_decode req k payload s Hp Hm Ha).
  rewrite (update_drink_found req k payload s d Hd).
  set (s0 := mkStore (rows s) (ops s ++ [OpQueryById k])).
  pose proof (filter_singleton_id k (rows s) d Hd) as Hid.
  assert (Hd0 : rows_with (id d) s0 = [d]) by (rewrite Hid; exact Hd).
  assert (Hsame : rows s = map (fun x => if id x =? k then d else x) (rows s)).
  { symmetry. apply map_replace_same. exact Hd. }
  destruct (get_json req) as [| b | z | str | l | kvs] eqn:Eb;
    try (rewrite update_drink_try_not_dict by (intros kvs'; discriminate);
         exists bad_request, s0, d;
         repeat split; [now left | exact Hsame | discriminate | discriminate]).
  rewrite update_drink_try_dict.
  destruct (update_cases (patched (JObj kvs) d) s0) as [[e He] | Hok].
  - rewrite He. eexists bad_request, _, d.
    repeat split; [now left | exact Hsame | discriminate |].
    intros Hk view _. injection Hk as ->. exfalso.
    rewrite (update_same_title d (patched (JObj []) d) s0 Hd0 eq_refl eq_refl)
      in He.
    discriminate He.
  - rewrite Hok. rewrite patched_id, Hid.
    destruct (DrinkModel.long (patched (JObj kvs) d)) as [view|e] eqn:El.
    + eexists _, _, (patched (JObj kvs) d).
      repeat split; [now right|].
      intros Hk view' Hv. injection Hk as ->.
      rewrite patched_empty, Hv in El. now injection El as ->.
    + eexists _, _, (patched (JObj kvs) d).
      split; [reflexivity|]. split; [now right|]. split; [reflexivity|].
      split; [reflexivity|].
      intros Hk view' Hv. injection Hk as ->.
      rewrite patched_empty, Hv in El. discriminate El.
Qed.

(** C4. An update overwrites only the fields that are present and truthy in
    the body.  On an id that one row has: the rows of that id become the
    patched row or stay as they were, and every other row stays; with only a
    title in the body every stored recipe is the same text as before; with an
    empty body the table is unchanged and the answer is 200 with the entity
    as it was, in its full view, which every row has whose recipe
    [json.dumps] wrote; and no update makes a title the empty string or a
    recipe the empty list. *)
Theorem update_overwrites_truthy_fields (req : Request) (k : Z)
  (payload : Claims) (s : Store) (d : Drink) :
  path req = PathDrinkId k -> method req = PATCH ->
  authenticate jwt_decode "patch:drinks" req = Ok payload ->
  rows_with k s = [d] ->
  exists r s' d',
    serve jwt_decode req s = (r, s')
    /\ (d' = d \/ d' = patched (get_json req) d)
    /\ rows s' = map (fun x => if id x =? k then d' else x) (rows s)
    /\ (status r = 200 -> d' = patched (get_json req) d)
    /\ (forall x, get_json req = JObj [("title", x)] ->
        map recipe (rows s') = map recipe (rows s))
    /\ (get_json req = JObj [] ->
        rows s' = rows s
        /\ forall view, DrinkModel.long d = Ok view ->
           r = mkResponse (JObj [("success", JBool true);
                                 ("drinks", JArr [view])]) 200)
    /\ (well_stored s -> exists view, DrinkModel.long d = Ok view)
    /\ (forall x', In x' (rows s') -> id x' = k ->
        (title x' = JStr "" -> title d = JStr "")
        /\ (recipe x' = "[]" -> recipe d = "[]")).
Proof.
  intros Hp Hm Ha Hd.
  destruct (update_outcome req k payload s d Hp Hm Ha Hd)
    as (r & s' & d' & Hs & Hd' & Hrows & H200 & Hempty).
  exists r, s', d'. repeat (split; [assumption|]).
  split; [|split; [|split]].
  3:{ intros Hw.
      assert (Hin : In d (rows s)).
      { assert (H : In d (rows_with k s)) by (rewrite Hd; now left).
        apply filter_In in H. tauto. }
      destruct (proj1 (Forall_forall _ _) Hw d Hin) as [v Hv].
      destruct d as [kd td rd]. simpl in Hv. subst rd.
      rewrite long_dumps. eexists; reflexivity. }
  - intros x Hb. rewrite Hrows, map_map. apply map_ext_in.
    intros y Hin. destruct (id y =? k) eqn:E; [|reflexivity].
    rewrite (filter_singleton_eq _ (rows s) d y Hd Hin E).
    destruct Hd' as [-> | ->]; [reflexivity|].
    rewrite Hb. reflexivity.
  - intros Hb. split; [|exact (Hempty Hb)].
    rewrite Hrows. apply map_replace_same.
    destruct Hd' as [-> | ->]; [exact Hd|].
    rewrite Hb, patched_empty. exact Hd.
  - intros x' Hin Hk. rewrite Hrows in Hin. apply in_map_iff in Hin.
    destruct Hin as (y & Hy & Hin).
    destruct (id y =? k) eqn:E.
    + subst x'. destruct Hd' as [-> | ->]; [tauto|].
      apply patched_not_cleared.
    + subst x'. apply Z.eqb_neq in E. contradiction.
Qed.

(** A PATCH or DELETE request on an id that no row has is answered by the
    handler of 404 and leaves every row as it was. *)
Lemma missing_id_not_found (req : Request) (k : Z) (payload : Claims)
  (s : Store) :
  path req = PathDrinkId k ->
  (method req = PATCH /\ authenticate jwt_decode "patch:drinks" req = Ok payload)
  \/ (method req = DELETE
      /\ authenticate jwt_decode "delete:drinks" req = Ok payload) ->
  rows_with k s = [] ->
  serve jwt_decode req s
  = (not_found, mkStore (rows s) (ops s ++ [OpQueryById k])).
Proof.
  intros Hp [[Hm Ha] | [Hm Ha]] Hd.
  - rewrite (serve_patch jwt_decode req k payload s Hp Hm Ha).
    rewrite (update_drink_missing req k payload s Hd). reflexivity.
  - rewrite (serve_delete jwt_decode req k payload s Hp Hm Ha).
    rewrite (delete_drink_missing k payload s Hd). reflexivity.
Qed.

End Frame.

(** *** Listing *)

Lemma long_shown_id (d : Drink) (view : json) :
  DrinkModel.long d = Ok view -> shown_id view = [id d].
Proof.
  unfold DrinkModel.long. destruct (json_loads (recipe d)); [|discriminate].
  intros H. injection H as <-. reflexivity.
Qed.

Lemma short_shown_id (d : Drink) (view : json) :
  DrinkModel.short d = Ok view -> shown_id view = [id d].
Proof.
  unfold DrinkModel.short, rbind.
  destruct (json_loads (recipe d)) as [v|]; [|discriminate].
  destruct (iterate v) as [entries|]; [|discriminate].
  destruct (comprehension _ entries); [|discriminate].
  intros H. injection H as <-. reflexivity.
Qed.

Lemma comprehension_shown_ids (f : Drink -> result json) (l : list Drink)
  (views : list json) :
  (forall d view, f d = Ok view -> shown_id view = [id d]) ->
  comprehension f l = Ok views ->
  flat_map shown_id views = map id l.
Proof.
  intros Hf. revert views. induction l as [|d l IH]; simpl; intros views H.
  - injection H as <-. reflexivity.
  - destruct (f d) as [view|] eqn:Ev; [|discriminate].
    destruct (comprehension f l) as [vs|]; [|discriminate].
    injection H as <-. simpl. rewrite (Hf d view Ev), (IH vs eq_refl).
    reflexivity.
Qed.

(** An error response lists no drink. *)
Lemma listed_ids_error (e : exn) : listed_ids (handle_exception e) = [].
Proof.
  destruct e as [key | | | | | | code | a]; try reflexivity.
  - unfold handle_exception, errorhandler.
    repeat match goal with
           | |- context [if ?c then _ else _] => destruct c; try reflexivity
           end.
  - unfold handle_exception, auth_error.
    destruct (assoc "description" (error a)); reflexivity.
Qed.

Lemma get_drinks_run (payload : Claims) (s : Store) :
  get_drinks payload s
  = (match comprehension DrinkModel.short (rows s) with
     | Ok shorts =>
         Ok (mkResponse (JObj [("success", JBool true);
                               ("drinks", JArr shorts)]) 200)
     | Raise e => Raise e
     end,
     mkStore (rows s) (ops s ++ [OpQueryAll])).
Proof.
  unfold get_drinks, bind, DrinkModel.query_all, DrinkModel.log, lift, ret.
  simpl. destruct (comprehension DrinkModel.short (rows s)); reflexivity.
Qed.

Lemma get_drink_detail_run (payload : Claims) (s : Store) :
  get_drink_detail payload s
  = (match comprehension DrinkModel.long (rows s) with
     | Ok longs =>
         Ok (mkResponse (JObj [("success", JBool true);
                               ("drinks", JArr longs)]) 200)
     | Raise e => Raise e
     end,
     mkStore (rows s) (ops s ++ [OpQueryAll])).
Proof.
  unfold get_drink_detail, bind, DrinkModel.query_all, DrinkModel.log, lift, ret.
  simpl. destruct (comprehension DrinkModel.long (rows s)); reflexivity.
Qed.

Section Listing.

Variable jwt_decode : string -> JwtOutcome.

(** A list request shows ids of rows of the table only, and leaves the rows
    as they are. *)
Lemma listing_shows_rows (req : Request) (s : Store) :
  path req = PathDrinks \/ path req = PathDrinksDetail ->
  method req = GET ->
  incl (listed_ids (fst (serve jwt_decode req s))) (map id (rows s))
  /\ rows (snd (serve jwt_decode req s)) = rows s.
Proof.
  intros [Hp | Hp] Hm; unfold serve, url_map; rewrite Hp, Hm;
    rewrite requires_auth_authenticate;
    (destruct (authenticate jwt_decode _ req) as [payload|e];
     [| simpl; rewrite listed_ids_error; split;
        [apply incl_nil_l | reflexivity]]).
  - rewrite get_drinks_run.
    destruct (comprehension DrinkModel.short (rows s)) as [views|e] eqn:E.
    + simpl. split; [|reflexivity]. unfold listed_ids. simpl.
      change (flat_map _ views) with (flat_map shown_id views).
      rewrite (comprehension_shown_ids _ _ _ short_shown_id E).
      apply incl_refl.
    + simpl. rewrite listed_ids_error. split; [apply incl_nil_l | reflexivity].
  - rewrite get_drink_detail_run.
    destruct (comprehension DrinkModel.long (rows s)) as [views|e] eqn:E.
    + simpl. split; [|reflexivity]. unfold listed_ids. simpl.
      change (flat_map _ views) with (flat_map shown_id views).
      rewrite (comprehension_shown_ids _ _ _ long_shown_id E).
      apply incl_refl.
    + simpl. rewrite listed_ids_error. split; [apply incl_nil_l | reflexivity].
Qed.

End Listing.

(** *** Ids under requests that create nothing *)

Lemma update_drink_try_ids (b : json) (d : Drink) (s : Store) :
  map id (rows (snd (update_drink_try b d s))) = map id (rows s).
Proof.
  destruct b as [| x | z | str | l | kvs];
    try (rewrite update_drink_try_not_dict by (intros kvs'; discriminate);
         reflexivity).
  rewrite update_drink_try_dict.
  destruct (update_cases (patched (JObj kvs) d) s) as [[e He] | Hok].
  - rewrite He. reflexivity.
  - rewrite Hok. simpl. rewrite map_map. apply map_ext.
    intros y. destruct (id y =? id d) eqn:E; [|reflexivity].
    apply Z.eqb_eq in E. now rewrite E.
Qed.

Lemma update_drink_ids (req : Request) (k : Z) (payload : Claims) (s : Store) :
  map id (rows (snd (update_drink req k payload s))) = map id (rows s).
Proof.
  unfold update_drink, bind. rewrite query_one_or_none_run.
  destruct (rows_with k s) as [|d [|d' l]]; try reflexivity.
  unfold try_except, lift, ret, abort, raise.
  pose proof (update_drink_try_ids (get_json req) d
                (mkStore (rows s) (ops s ++ [OpQueryById k]))) as H.
  destruct (update_drink_try _ d _) as [[dnew|e] s1]; simpl in *.
  - destruct (DrinkModel.long dnew); exact H.
  - exact H.
Qed.


Section Ids.

Variable jwt_decode : string -> JwtOutcome.




End Ids.

(** On a table whose recipes [json.dumps] wrote, every row has its full
    view. *)
Lemma comprehension_long_total (l : list Drink) :
  Forall (fun d => exists v, recipe d = json_dumps v) l ->
  exists views, comprehension DrinkModel.long l = Ok views.
Proof.
  induction 1 as [|d l [v Hv] _ [views IH]]; simpl.
  - eexists; reflexivity.
  - destruct d as [k t r]. simpl in Hv. subst r.
    rewrite long_dumps, IH. eexists; reflexivity.
Qed.

Section WellStored.

Variable jwt_decode : string -> JwtOutcome.

(** The detail list of such a table, for a request with the scope, is
    answered 200 and shows the ids of all its rows in order. *)
Lemma detail_lists_every_row (req : Request) (payload : Claims) (s : Store) :
  path req = PathDrinksDetail -> method req = GET ->
  authenticate jwt_decode "get:drinks-detail" req = Ok payload ->
  well_stored s ->
  status (fst (serve jwt_decode req s)) = 200
  /\ listed_ids (fst (serve jwt_decode req s)) = map id (rows s).
Proof.
  intros Hp Hm Ha Hw. unfold serve, url_map. rewrite Hp, Hm.
  rewrite requires_auth_authenticate, Ha, get_drink_detail_run.
  destruct (comprehension_long_total (rows s) Hw) as [views E].
  rewrite E. simpl. split; [reflexivity|]. unfold listed_ids. simpl.
  change (flat_map _ views) with (flat_map shown_id views).
  apply (comprehension_shown_ids _ _ _ long_shown_id E).
Qed.

(** Every request keeps the recipes of the table texts of [json.dumps]. *)
Lemma serve_well_stored (req : Request) (s : Store) :
  well_stored s -> well_stored (snd (serve jwt_decode req s)).
Proof.
  unfold well_stored. intros Hw. unfold serve, url_map.
  destruct (path req) as [| | k |] eqn:Hp; destruct (method req) eqn:Hm;
    try exact Hw;
    rewrite requires_auth_authenticate;
    (destruct (authenticate jwt_decode _ req) as [payload|e]; [|exact Hw]).
  - rewrite get_drinks_run.
    destruct (comprehension DrinkModel.short (rows s)); exact Hw.
  - unfold create_drink, bind, try_except, lift.
    destruct (create_drink_try_cases (get_json req) s)
      as [(e & s1 & H & Hrows) | (t & r & _ & _ & _ & H)]; rewrite H.
    + simpl. rewrite Hrows. exact Hw.
    + unfold created at 1. rewrite long_dumps. simpl.
      apply Forall_app. split; [exact Hw|].
      constructor; [|constructor]. eexists. reflexivity.
  - rewrite get_drink_detail_run.
    destruct (comprehension DrinkModel.long (rows s)); exact Hw.
  - unfold update_drink, bind. rewrite query_one_or_none_run.
    destruct (rows_with k s) as [|d [|d' l]] eqn:Hd; try exact Hw.
    assert (Hdw : exists v, recipe d = json_dumps v).
    { assert (Hin : In d (rows s)).
      { assert (H : In d (rows_with k s)) by (rewrite Hd; now left).
        apply filter_In in H. tauto. }
      exact (proj1 (Forall_forall _ _) Hw d Hin). }
    unfold try_except, lift, ret, abort, raise.
    set (s0 := mkStore (rows s) (ops s ++ [OpQueryById k])).
    assert (Hgoal : Forall (fun dr => exists v, recipe dr = json_dumps v)
                      (rows (snd (update_drink_try (get_json req) d s0)))).
    { destruct (get_json req) as [| x | z | str | l | kvs];
        try (rewrite update_drink_try_not_dict by (intros kvs'; discriminate);
             exact Hw).
      rewrite update_drink_try_dict.
      destruct (update_cases (patched (JObj kvs) d) s0) as [[e He] | Hok].
      - rewrite He. exact Hw.
      - rewrite Hok. simpl. apply Forall_forall. intros y Hy.
        apply in_map_iff in Hy as (z & <- & Hz).
        destruct (id z =? id d).
        + unfold patched. simpl.
          destruct (truthy (submitted (JObj kvs) "recipe"));
            [eexists; reflexivity | exact Hdw].
        + exact (proj1 (Forall_forall _ _) Hw z Hz). }
    destruct (update_drink_try _ d s0) as [[dnew|e] s1]; simpl in *.
    + destruct (DrinkModel.long dnew); exact Hgoal.
    + exact Hgoal.
  - unfold delete_drink, bind. rewrite query_one_or_none_run.
    destruct (rows_with k s) as [|d [|d' l]]; try exact Hw.
    unfold try_except, DrinkModel.delete, bind, DrinkModel.log, ret. simpl.
    apply Forall_forall. intros y Hy. apply filter_In in Hy as [Hy _].
    exact (proj1 (Forall_forall _ _) Hw y Hy).
Qed.

End WellStored.

(** ** Startup *)

(** C10. Importing the module calls [db_drop_and_create_all()] before any
    request is served: the rows the process finds in the database are gone,
    the table holds the initial rows only, neither the responses of the run
    nor the store it ends with depend on the rows that were there, and a list
    of drinks, summary or detail, served first shows ids of initial rows
    only. *)
Theorem restart_drops_all_records (jwt_decode : string -> JwtOutcome)
  (initial : list Drink) (reqs : list Request)
  (found found' : list Drink) (served : list StorageOp)
  (hdr : option string) (b : json) :
  rows (snd (DrinkModel.db_drop_and_create_all initial (mkStore found served)))
  = initial
  /\ run jwt_decode initial reqs (mkStore found served)
     = serve_all jwt_decode reqs (mkStore initial served)
  /\ run jwt_decode initial reqs (mkStore found served)
     = run jwt_decode initial reqs (mkStore found' served)
  /\ Forall (fun r => incl (listed_ids r) (map id initial))
            (fst (run jwt_decode initial
                      [mkRequest GET PathDrinks hdr b;
                       mkRequest GET PathDrinksDetail hdr b]
                      (mkStore found served))).
Proof.
  split; [reflexivity|]. split; [reflexivity|]. split; [reflexivity|].
  change (run jwt_decode initial ?l (mkStore found served))
    with (serve_all jwt_decode l (mkStore initial served)).
  remember (mkRequest GET PathDrinks hdr b) as q1 eqn:E1.
  remember (mkRequest GET PathDrinksDetail hdr b) as q2 eqn:E2.
  remember (mkStore initial served) as s0 eqn:E0.
  assert (H1 : incl (listed_ids (fst (serve jwt_decode q1 s0))) (map id initial)
               /\ rows (snd (serve jwt_decode q1 s0)) = initial).
  { destruct (listing_shows_rows jwt_decode q1 s0) as [H R];
      [subst q1; now left | subst q1; reflexivity |].
    subst s0. split; assumption. }
  simpl serve_all.
  destruct (serve jwt_decode q1 s0) as [r1 s1]. destruct H1 as [H1 R1].
  simpl in H1, R1.
  assert (H2 : incl (listed_ids (fst (serve jwt_decode q2 s1))) (map id (rows s1))).
  { apply listing_shows_rows; subst q2; [now right | reflexivity]. }
  destruct (serve jwt_decode q2 s1) as [r2 s2]. simpl in H2.
  rewrite R1 in H2. simpl.
  constructor; [exact H1|]. constructor; [exact H2|]. constructor.
Qed.

(** ** The error handlers *)

(** The handlers of 400, 401, 422 and 500 answer with the uniform envelope. *)
Lemma other_handlers_envelope :
  error_envelope bad_request /\ error_envelope unauthorized
  /\ error_envelope unprocessable /\ error_envelope internal_server_error.
Proof. repeat split; eexists; reflexivity. Qed.

(** C2. The handlers of 404 and 405 do not answer with the uniform envelope:
    a request for an unknown URL and a request with a method that its URL
    does not take are answered with [success] true in the body. *)
Theorem not_found_and_not_allowed_report_success :
  serve sample_jwt (as_manager GET PathOther JNull) empty_store
  = (not_found, empty_store)
  /\ status not_found = 404
  /\ field "success" (body not_found) = Some (JBool true)
  /\ ~ error_envelope not_found
  /\ serve sample_jwt (as_manager PUT PathDrinks JNull) empty_store
     = (method_not_allowed, empty_store)
  /\ status method_not_allowed = 405
  /\ field "success" (body method_not_allowed) = Some (JBool true)
  /\ ~ error_envelope method_not_allowed.
Proof.
  repeat split; try (intros [message H]; discriminate H).
Qed.

(** C5. A PATCH and a DELETE request on the id 7, which the table with one
    drink does not have, are answered 404 with [error] 404 and leave the rows
    as they were, but the body says [success] true. *)
Theorem missing_id_reports_success :
  let patch := as_manager PATCH (PathDrinkId 7) (JObj [("title", JStr "Tea")]) in
  let del := as_manager DELETE (PathDrinkId 7) JNull in
  rows_with 7 one_drink = []
  /\ fst (serve sample_jwt patch one_drink) = not_found
  /\ fst (serve sample_jwt del one_drink) = not_found
  /\ rows (snd (serve sample_jwt patch one_drink)) = rows one_drink
  /\ rows (snd (serve sample_jwt del one_drink)) = rows one_drink
  /\ status not_found = 404
  /\ field "error" (body not_found) = Some (JNum 404)
  /\ field "success" (body not_found) = Some (JBool true).
Proof. vm_compute. repeat split. Qed.

(** C3. An update with a single recipe entry in the body stores the entry
    itself, not a list with the entry in it: the stored recipe decodes to a
    dict, where the create request with the same entry stores a list. *)
Theorem update_stores_single_entry_as_dict :
  let patch := as_manager PATCH (PathDrinkId 1) (JObj [("recipe", water)]) in
  let post := as_manager POST PathDrinks
                (JObj [("title", JStr "Water"); ("recipe", water)]) in
  status (fst (serve sample_jwt patch one_drink)) = 200
  /\ map recipe (rows (snd (serve sample_jwt patch one_drink)))
     = [json_dumps water]
  /\ map (fun d => json_loads (recipe d))
         (rows (snd (serve sample_jwt patch one_drink)))
     = [Some water]
  /\ map (fun d => json_loads (recipe d))
         (rows (snd (serve sample_jwt post empty_store)))
     = [Some (JArr [water])].
Proof. vm_compute. repeat split. Qed.


(** C7, against the statement that an empty title is refused: a create
    request with the empty string as its title is answered 200 and the item
    is persisted. *)
Lemma empty_title_is_persisted :
  let req := as_manager POST PathDrinks
               (JObj [("title", JStr ""); ("recipe", JArr [water])]) in
  getitem (get_json req) "title" = Ok (JStr "")
  /\ status (fst (serve sample_jwt req empty_store)) = 200
  /\ rows (snd (serve sample_jwt req empty_store))
     = [mkDrink 1 (JStr "") (json_dumps (JArr [water]))]
  /\ ~ create_fails sample_jwt req empty_store.
Proof.
  split; [reflexivity|]. split; [reflexivity|]. split; [reflexivity|].
  intros [H _]. apply H. reflexivity.
Qed.

(** ** The statements at sample requests *)

(** C1 at a sample request: the token [barista] has no scope to delete. *)
Lemma auth_gating_witness :
  let req := mkRequest DELETE (PathDrinkId 1) (Some "Bearer barista") JNull in
  required_scope req = Some "delete:drinks"
  /\ denied sample_jwt "delete:drinks" req
  /\ exists r,
      serve sample_jwt req one_drink = (r, one_drink)
      /\ status r = 401
      /\ field "success" (body r) = Some (JBool false)
      /\ error_envelope r.
Proof.
  intros req.
  assert (Hd : denied sample_jwt "delete:drinks" req).
  { apply (denied_scope sample_jwt "delete:drinks" req "barista"
             (mkClaims "issuer" "drinks" 0
                       (Some ["get:drinks"; "get:drinks-detail"]))
             ["get:drinks"; "get:drinks-detail"]);
      try reflexivity.
    intros [H | [H | []]]; discriminate H. }
  split; [reflexivity|]. split; [exact Hd|].
  exact (auth_gating sample_jwt req "delete:drinks" one_drink eq_refl Hd).
Defined.

(** C9 at two sample failures: the verifier on the expired token [stale], and
    a failure with the status code 403. *)
Lemma auth_error_relays_witness :
  raised_by_auth sample_jwt (auth_failure "token_expired" "Token expired.")
  /\ auth_error (auth_failure "token_expired" "Token expired.")
     = Ok (mkResponse (JObj [("success", JBool false);
                             ("error", JNum 401);
                             ("message", JStr "Token expired.")]) 401)
  /\ assoc "description" (error forbidden) = Some "Not allowed here."
  /\ auth_error forbidden
     = Ok (mkResponse (JObj [("success", JBool false);
                             ("error", JNum 403);
                             ("message", JStr "Not allowed here.")]) 403).
Proof.
  assert (H : raised_by_auth sample_jwt
                (auth_failure "token_expired" "Token expired.")).
  { apply (raised_by_verifier sample_jwt _ "stale"). reflexivity. }
  destruct (auth_error_relays sample_jwt _ (or_introl H)) as (d1 & E1 & A1 & _).
  destruct (auth_error_relays sample_jwt forbidden
              (or_intror (ex_intro _ "Not allowed here." eq_refl)))
    as (d2 & E2 & A2 & _).
  injection E1 as <-. injection E2 as <-.
  split; [exact H|]. split; [exact A1|]. split; [reflexivity | exact A2].
Defined.

(** C6 at sample requests: a second drink under the title of the first. *)
Lemma create_failures_witness :
  let req := as_manager POST PathDrinks
               (JObj [("title", JStr "Water"); ("recipe", water)]) in
  let again := as_manager POST PathDrinks
                 (JObj [("title", JStr "Water"); ("recipe", JArr [])]) in
  let s' := snd (serve sample_jwt req empty_store) in
  path req = PathDrinks /\ method req = POST
  /\ authenticate sample_jwt "post:drinks" req = Ok manager_claims
  /\ status (fst (serve sample_jwt req empty_store)) = 200
  /\ (exists d, In d (rows s') /\ title d = JStr "Water")
  /\ exists s2, serve sample_jwt again s' = (bad_request, s2)
                /\ rows s2 = rows s'.
Proof.
  intros req again s'.
  destruct (create_failures_are_bad_requests sample_jwt req manager_claims
              empty_store eq_refl eq_refl eq_refl) as (_ & _ & H).
  destruct (H (fst (serve sample_jwt req empty_store)) s' (JStr "Water")
              eq_refl eq_refl eq_refl) as [Hfirst Hsecond].
  repeat (split; [reflexivity|]).
  split; [exact Hfirst|].
  exact (Hsecond again manager_claims eq_refl eq_refl eq_refl eq_refl).
Defined.

(** C7 at a sample request: a body with a recipe and no title. *)
Lemma create_requires_title_witness :
  let req := as_manager POST PathDrinks (JObj [("recipe", JArr [water])]) in
  path req = PathDrinks /\ method req = POST
  /\ authenticate sample_jwt "post:drinks" req = Ok manager_claims
  /\ getitem (get_json req) "title" = Raise (KeyError "title")
  /\ fst (serve sample_jwt req one_drink) = bad_request
  /\ create_fails sample_jwt req one_drink.
Proof.
  intros req.
  destruct (create_requires_title sample_jwt req manager_claims one_drink
              eq_refl eq_refl eq_refl) as [H _].
  do 4 (split; [reflexivity|]).
  exact (H (KeyError "title") eq_refl).
Defined.

(** C4 at a sample request: a new title for the only drink. *)
Lemma update_overwrites_witness :
  let req := as_manager PATCH (PathDrinkId 1) (JObj [("title", JStr "Tea")]) in
  let d := mkDrink 1 (JStr "Water") (json_dumps (JArr [water])) in
  path req = PathDrinkId 1 /\ method req = PATCH
  /\ authenticate sample_jwt "patch:drinks" req = Ok manager_claims
  /\ rows_with 1 one_drink = [d]
  /\ exists r s' d',
      serve sample_jwt req one_drink = (r, s')
      /\ (d' = d \/ d' = patched (get_json req) d)
      /\ rows s' = map (fun x => if id x =? 1 then d' else x) (rows one_drink)
      /\ map recipe (rows s') = map recipe (rows one_drink).
Proof.
  intros req d.
  destruct (update_overwrites_truthy_fields sample_jwt req 1 manager_claims
              one_drink d eq_refl eq_refl eq_refl eq_refl)
    as (r & s' & d' & Hs & Hd & Hrows & _ & Htitle & _).
  repeat (split; [reflexivity|]).
  exists r, s', d'. repeat (split; [assumption|]).
  exact (Htitle (JStr "Tea") eq_refl).
Defined.


(** ** Further properties of [api.py] *)

(** *** Routing and the error handlers *)

(** X1. A request that matches no rule of the URL map is answered by the
    handler of 404 when the URL is unknown and by the handler of 405 when the
    URL is known and the method is not: the token is not looked at, so even a
    request without an [Authorization] header is not answered 401, and the
    store comes back as it was. *)
Theorem unrouted_requests_skip_auth (jwt_decode : string -> JwtOutcome)
  (req : Request) (s : Store) :
  required_scope req = None ->
  serve jwt_decode req s
  = (match path req with
     | PathOther => not_found
     | _ => method_not_allowed
     end, s).
Proof.
  unfold required_scope, serve, url_map.
  destruct (path req), (method req); intros H;
    solve [discriminate H | reflexivity].
Qed.

Lemma unrouted_requests_skip_auth_witness :
  required_scope (mkRequest PUT (PathDrinkId 1) None JNull) = None
  /\ serve sample_jwt (mkRequest PUT (PathDrinkId 1) None JNull) one_drink
     = (method_not_allowed, one_drink).
Proof.
  split; [reflexivity|].
  exact (unrouted_requests_skip_auth sample_jwt
           (mkRequest PUT (PathDrinkId 1) None JNull) one_drink eq_refl).
Defined.

(** X2. The status codes that have a handler registered with
    [@app.errorhandler] are exactly 400, 401, 404, 405, 422 and 500, and each
    of these handlers answers with the status it is registered for, the same
    number in its [error] field and a message; [success] is false in all but
    the handlers of 404 and 405. *)
Theorem error_handlers_match_their_code (code : Z) :
  (In code [400; 401; 404; 405; 422; 500]
   <-> exists r, errorhandler code = Some r)
  /\ forall r,
      errorhandler code = Some r ->
      status r = code
      /\ field "error" (body r) = Some (JNum code)
      /\ (exists message, field "message" (body r) = Some (JStr message))
      /\ field "success" (body r)
         = Some (JBool ((code =? 404) || (code =? 405))).
Proof.
  split; [split|].
  - intros H. simpl in H.
    repeat (destruct H as [<- | H]; [eexists; reflexivity|]).
    contradiction.
  - intros [r H]. revert H. unfold errorhandler.
    repeat match goal with
           | |- context [if ?c =? ?n then _ else _] =>
               destruct (Z.eqb_spec c n) as [->|]
           end;
      intros H; try discriminate H; simpl; tauto.
  - intros r. unfold errorhandler.
    repeat match goal with
           | |- context [if ?c =? ?n then _ else _] =>
               destruct (Z.eqb_spec c n) as [->|]
           end;
      intros H; try discriminate H; injection H as <-; simpl;
      repeat split; eexists; reflexivity.
Qed.

(** X2 at two sample codes: 500 has its handler, 403 has none. *)
Lemma error_handlers_match_their_code_witness :
  (exists r, errorhandler 500 = Some r)
  /\ status internal_server_error = 500
  /\ field "success" (body internal_server_error) = Some (JBool false)
  /\ errorhandler 403 = None.
Proof.
  destruct (error_handlers_match_their_code 500) as [[H500 _] Hshape].
  destruct (Hshape internal_server_error eq_refl) as (Hs & _ & _ & Hb).
  destruct (error_handlers_match_their_code 403) as [[_ H403] _].
  split; [apply H500; simpl; tauto|]. split; [exact Hs|]. split; [exact Hb|].
  destruct (errorhandler 403) as [r|] eqn:E; [|reflexivity].
  exfalso. destruct (H403 (ex_intro _ r eq_refl)) as [H | [H | [H | [H | [H | [H | []]]]]]];
    discriminate H.
Defined.

(** *** The list handlers *)

Lemma handle_unhandled (e : exn) :
  unhandled e = true -> handle_exception e = internal_server_error.
Proof. destruct e; simpl; intros H; solve [reflexivity | discriminate H]. Qed.

Lemma comprehension_raises {A B : Type} (f : A -> result B) (l : list A)
  (e : exn) :
  comprehension f l = Raise e -> exists x, In x l /\ f x = Raise e.
Proof.
  induction l as [|x l IH]; simpl; [discriminate|].
  destruct (f x) as [y|e'] eqn:Ex.
  - destruct (comprehension f l) as [ys|e'']; [discriminate|].
    intros H. injection H as ->.
    destruct (IH eq_refl) as (z & Hz & Hf). exists z. split; [now right | exact Hf].
  - intros H. injection H as ->. exists x. split; [now left | exact Ex].
Qed.

Lemma comprehension_views {A B : Type} (f : A -> result B) (l : list A)
  (ys : list B) :
  comprehension f l = Ok ys <-> Forall2 (fun x y => f x = Ok y) l ys.
Proof.
  revert ys. induction l as [|x l IH]; intros ys; simpl.
  - split.
    + intros H. injection H as <-. constructor.
    + intros H. inversion H. reflexivity.
  - split.
    + destruct (f x) as [y|] eqn:Ex; [|discriminate].
      destruct (comprehension f l) as [zs|]; [|discriminate].
      intros H. injection H as <-. constructor; [exact Ex | now apply IH].
    + intros H. inversion H as [|? y ? zs Hx Hl]; subst.
      rewrite Hx. apply IH in Hl. rewrite Hl. reflexivity.
Qed.

Lemma getitem_raises (obj : json) (key : string) (e : exn) :
  getitem obj key = Raise e -> unhandled e = true.
Proof.
  unfold getitem. destruct obj; try (intros H; injection H as <-; reflexivity).
  destruct (assoc key kvs); intros H; [discriminate|].
  injection H as <-. reflexivity.
Qed.

Lemma long_raises (d : Drink) (e : exn) :
  DrinkModel.long d = Raise e -> unhandled e = true.
Proof.
  unfold DrinkModel.long. destruct (json_loads (recipe d)); [discriminate|].
  intros H. injection H as <-. reflexivity.
Qed.

Lemma short_raises (d : Drink) (e : exn) :
  DrinkModel.short d = Raise e -> unhandled e = true.
Proof.
  unfold DrinkModel.short.
  destruct (json_loads (recipe d)) as [v|];
    [|intros H; injection H as <-; reflexivity].
  unfold rbind at 1.
  destruct (iterate v) as [entries|e'] eqn:Ei.
  - unfold rbind at 1.
    destruct (comprehension _ entries) as [ys|e'] eqn:Ec; [discriminate|].
    intros H. injection H as ->.
    apply comprehension_raises in Ec as (x & _ & Hx).
    unfold rbind in Hx.
    destruct (getitem x "color") as [c|e1] eqn:E1.
    + destruct (getitem x "parts") as [p|e2] eqn:E2; [discriminate|].
      injection Hx as <-. exact (getitem_raises _ _ _ E2).
    + injection Hx as <-. exact (getitem_raises _ _ _ E1).
  - intros H. injection H as ->.
    destruct v; simpl in Ei; try discriminate Ei; injection Ei as <-; reflexivity.
Qed.

Section Lists.

Variable jwt_decode : string -> JwtOutcome.

(** X4. The summary list is all or nothing.  For a request with the scope,
    either every row has its short view and the answer is 200 with these
    views, one for each row in the order of the table, or some row has none
    and the answer is the 500 envelope, with no partial list.  Either way the
    handler reads the table once and writes nothing. *)
Theorem summary_list_all_or_nothing (req : Request) (payload : Claims)
  (s : Store) :
  path req = PathDrinks -> method req = GET ->
  authenticate jwt_decode "get:drinks" req = Ok payload ->
  snd (serve jwt_decode req s) = mkStore (rows s) (ops s ++ [OpQueryAll])
  /\ ((exists views,
          Forall2 (fun d view => DrinkModel.short d = Ok view) (rows s) views
          /\ fst (serve jwt_decode req s)
             = mkResponse (JObj [("success", JBool true);
                                 ("drinks", JArr views)]) 200)
      \/ (exists d e,
             In d (rows s) /\ DrinkModel.short d = Raise e
             /\ fst (serve jwt_decode req s) = internal_server_error)).
Proof.
  intros Hp Hm Ha. unfold serve, url_map. rewrite Hp, Hm.
  rewrite requires_auth_authenticate, Ha, get_drinks_run.
  destruct (comprehension DrinkModel.short (rows s)) as [views|e] eqn:E; simpl.
  - split; [reflexivity|]. left. exists views.
    split; [now apply comprehension_views | reflexivity].
  - split; [reflexivity|]. right.
    destruct (comprehension_raises _ _ _ E) as (d & Hin & Hd).
    exists d, e. repeat split; try assumption.
    apply handle_unhandled. exact (short_raises d e Hd).
Qed.

Lemma serve_all_well_stored (reqs : list Request) (s : Store) :
  well_stored s -> well_stored (snd (serve_all jwt_decode reqs s)).
Proof.
  revert s. induction reqs as [|req reqs IH]; intros s Hw; [exact Hw|].
  simpl. pose proof (serve_well_stored jwt_decode req s Hw) as H1.
  destruct (serve jwt_decode req s) as [r s1]. simpl in H1.
  pose proof (IH s1 H1) as H2.
  destruct (serve_all jwt_decode reqs s1) as [rs s2]. exact H2.
Qed.

(** X5. The detail list never fails in a run.  The handlers store no recipe
    but through [json.dumps], so from a table whose recipes are such texts,
    and after any requests whatever, a detail list for a request with the
    scope is answered 200 and shows every row of the table, in order, with
    its id and title and its recipe decoded. *)
Theorem detail_list_never_fails (before : list Request) (req : Request)
  (payload : Claims) (s : Store) :
  well_stored s ->
  path req = PathDrinksDetail -> method req = GET ->
  authenticate jwt_decode "get:drinks-detail" req = Ok payload ->
  exists views,
    fst (serve jwt_decode req (snd (serve_all jwt_decode before s)))
    = mkResponse (JObj [("success", JBool true); ("drinks", JArr views)]) 200
    /\ Forall2 (fun d view =>
                  exists v,
                    recipe d = json_dumps v
                    /\ view = JObj [("id", JNum (id d)); ("title", title d);
                                    ("recipe", v)])
               (rows (snd (serve_all jwt_decode before s))) views.
Proof.
  intros Hw Hp Hm Ha.
  pose proof (serve_all_well_stored before s Hw) as Hw'.
  set (s' := snd (serve_all jwt_decode before s)) in *.
  unfold serve, url_map. rewrite Hp, Hm.
  rewrite requires_auth_authenticate, Ha, get_drink_detail_run.
  destruct (comprehension_long_total (rows s') Hw') as [views E].
  rewrite E. simpl. exists views. split; [reflexivity|].
  apply comprehension_views in E. unfold well_stored in Hw'.
  clear - E Hw'. induction E as [|d view l views Hd _ IH]; [constructor|].
  inversion Hw' as [|? ? [v Hv] Hl]; subst.
  constructor; [|exact (IH Hl)].
  exists v. split; [exact Hv|].
  destruct d as [k t r]. simpl in Hv. subst r.
  rewrite long_dumps in Hd. now injection Hd as <-.
Qed.

End Lists.

Lemma summary_list_all_or_nothing_witness :
  let req := mkRequest GET PathDrinks (Some "Bearer barista") JNull in
  path req = PathDrinks /\ method req = GET
  /\ authenticate sample_jwt "get:drinks" req
     = Ok (mkClaims "issuer" "drinks" 0
                    (Some ["get:drinks"; "get:drinks-detail"]))
  /\ snd (serve sample_jwt req one_drink)
     = mkStore (rows one_drink) (ops one_drink ++ [OpQueryAll]).
Proof.
  intros req. do 3 (split; [reflexivity|]).
  exact (proj1 (summary_list_all_or_nothing sample_jwt req _ one_drink
                  eq_refl eq_refl eq_refl)).
Defined.

Lemma detail_list_never_fails_witness :
  let req := mkRequest GET PathDrinksDetail (Some "Bearer barista") JNull in
  let patch := as_manager PATCH (PathDrinkId 1) (JObj [("recipe", water)]) in
  well_stored one_drink
  /\ path req = PathDrinksDetail /\ method req = GET
  /\ authenticate sample_jwt "get:drinks-detail" req
     = Ok (mkClaims "issuer" "drinks" 0
                    (Some ["get:drinks"; "get:drinks-detail"]))
  /\ exists views,
      fst (serve sample_jwt req (snd (serve_all sample_jwt [patch] one_drink)))
      = mkResponse (JObj [("success", JBool true); ("drinks", JArr views)]) 200.
Proof.
  intros req patch.
  assert (Hw : well_stored one_drink).
  { constructor; [|constructor]. exists (JArr [water]). reflexivity. }
  split; [exact Hw|]. do 3 (split; [reflexivity|]).
  destruct (detail_list_never_fails sample_jwt [patch] req _ one_drink Hw
              eq_refl eq_refl eq_refl) as (views & H & _).
  exists views. exact H.
Defined.

(** *** How the view functions end *)

Lemma unhandled_outcome (e : exn) :
  unhandled e = true ->
  (e = HTTPException 400 /\ handle_exception e = bad_request)
  \/ (e = HTTPException 404 /\ handle_exception e = not_found)
  \/ (unhandled e = true /\ handle_exception e = internal_server_error).
Proof.
  intros H. right. right. split; [exact H | exact (handle_unhandled e H)].
Qed.

Lemma get_drinks_outcome (payload : Claims) (s : Store) :
  view_outcome (fst (get_drinks payload s)).
Proof.
  rewrite get_drinks_run. simpl.
  destruct (comprehension DrinkModel.short (rows s)) as [views|e] eqn:E.
  - repeat split.
  - apply comprehension_raises in E as (d & _ & Hd).
    apply unhandled_outcome. exact (short_raises d e Hd).
Qed.

Lemma get_drink_detail_outcome (payload : Claims) (s : Store) :
  view_outcome (fst (get_drink_detail payload s)).
Proof.
  rewrite get_drink_detail_run. simpl.
  destruct (comprehension DrinkModel.long (rows s)) as [views|e] eqn:E.
  - repeat split.
  - apply comprehension_raises in E as (d & _ & Hd).
    apply unhandled_outcome. exact (long_raises d e Hd).
Qed.

Lemma create_drink_outcome (req : Request) (payload : Claims) (s : Store) :
  view_outcome (fst (create_drink req payload s)).
Proof.
  destruct (create_drink_try_cases (get_json req) s)
    as [(e & s1 & H & _) | (t & r & _ & _ & _ & H)].
  - rewrite (create_drink_raise req payload s s1 e H). left. split; reflexivity.
  - rewrite (create_drink_ok req payload s t r H). repeat split.
Qed.

Lemma update_drink_outcome (req : Request) (k : Z) (payload : Claims)
  (s : Store) :
  view_outcome (fst (update_drink req k payload s)).
Proof.
  destruct (rows_with k s) as [|d [|d' l]] eqn:Hd.
  - rewrite (update_drink_missing req k payload s Hd).
    right. left. split; reflexivity.
  - rewrite (update_drink_found req k payload s d Hd).
    destruct (update_drink_try _ d _) as [[dnew|e] s1];
      [|left; split; reflexivity].
    destruct (DrinkModel.long dnew) as [view|e] eqn:El.
    + repeat split.
    + apply unhandled_outcome. exact (long_raises dnew e El).
  - unfold update_drink, bind. rewrite query_one_or_none_run, Hd.
    apply unhandled_outcome. reflexivity.
Qed.

Lemma delete_drink_outcome (k : Z) (payload : Claims) (s : Store) :
  view_outcome (fst (delete_drink k payload s)).
Proof.
  destruct (rows_with k s) as [|d [|d' l]] eqn:Hd.
  - rewrite (delete_drink_missing k payload s Hd).
    right. left. split; reflexivity.
  - rewrite (delete_drink_found k payload s d Hd). repeat split.
  - unfold delete_drink, bind. rewrite query_one_or_none_run, Hd.
    apply unhandled_outcome. reflexivity.
Qed.

(** X3. How the five view functions end.  Whatever the claims, the body that
    [get_json] returned, the id and the store, a view function returns 200
    with [success] true and no [error] field, or it leaves through
    [abort(400)], through [abort(404)] or with an exception that nothing
    catches, and the answer is that of the handler of 400, of 404 or of 500.
    No view function leads to the handlers of 401, 405 or 422. *)
Theorem view_functions_end_in_shape (req : Request) (k : Z)
  (payload : Claims) (s : Store) :
  view_outcome (fst (get_drinks payload s))
  /\ view_outcome (fst (get_drink_detail payload s))
  /\ view_outcome (fst (create_drink req payload s))
  /\ view_outcome (fst (update_drink req k payload s))
  /\ view_outcome (fst (delete_drink k payload s)).
Proof.
  repeat split.
  - apply get_drinks_outcome.
  - apply get_drink_detail_outcome.
  - apply create_drink_outcome.
  - apply update_drink_outcome.
  - apply delete_drink_outcome.
Qed.

(** *** Updates *)

Lemma filter_map_same_id (k : Z) (f : Drink -> Drink) (l : list Drink) :
  (forall x, id (f x) = id x) ->
  filter (fun x => id x =? k) (map f l)
  = map f (filter (fun x => id x =? k) l).
Proof.
  intros Hf. induction l as [|x l IH]; simpl; [reflexivity|].
  rewrite Hf. destruct (id x =? k); simpl; now rewrite IH.
Qed.

Lemma patched_twice (b : json) (d : Drink) :
  patched b (patched b d) = patched b d.
Proof.
  unfold patched. simpl.
  destruct (truthy (submitted b "title")), (truthy (submitted b "recipe"));
    reflexivity.
Qed.

Section Updates.

Variable jwt_decode : string -> JwtOutcome.

(** X6. Once [get_json] has returned the body, an update looks the id up
    before it looks into what was returned.  On an id that no row has the
    answer is that of the handler of 404, whatever JSON value the body is; on
    an id that one row has, a body that is not a JSON object is answered with
    the bad-request envelope.  In both cases no row changes and the lookup is
    the only operation that reaches the storage layer. *)
Theorem update_looks_up_id_before_fields (req : Request) (k : Z)
  (payload : Claims) (s : Store) :
  path req = PathDrinkId k -> method req = PATCH ->
  authenticate jwt_decode "patch:drinks" req = Ok payload ->
  (rows_with k s = [] ->
   serve jwt_decode req s
   = (not_found, mkStore (rows s) (ops s ++ [OpQueryById k])))
  /\ (forall d,
         rows_with k s = [d] ->
         (forall kvs, get_json req <> JObj kvs) ->
         serve jwt_decode req s
         = (bad_request, mkStore (rows s) (ops s ++ [OpQueryById k]))).
Proof.
  intros Hp Hm Ha. rewrite (serve_patch jwt_decode req k payload s Hp Hm Ha).
  split.
  - intros Hd. rewrite (update_drink_missing req k payload s Hd). reflexivity.
  - intros d Hd Hb. rewrite (update_drink_found req k payload s d Hd).
    rewrite (update_drink_try_not_dict _ d _ Hb). reflexivity.
Qed.

(** The answer 200 of an update, read back: the body was a JSON object, the
    patched row was written and the response shows its full view. *)
Lemma update_answered_200 (req : Request) (k : Z) (payload : Claims)
  (s : Store) (d : Drink) (r : Response) (s1 : Store) :
  path req = PathDrinkId k -> method req = PATCH ->
  authenticate jwt_decode "patch:drinks" req = Ok payload ->
  rows_with k s = [d] ->
  serve jwt_decode req s = (r, s1) -> status r = 200 ->
  exists view,
    DrinkModel.long (patched (get_json req) d) = Ok view
    /\ r = mkResponse (JObj [("success", JBool true); ("drinks", JArr [view])])
                      200
    /\ s1 = mkStore (map (fun x => if id x =? k then patched (get_json req) d
                                   else x) (rows s))
                    (ops s ++ [OpQueryById k; OpUpdate k]).
Proof.
  intros Hp Hm Ha Hd Hs H200.
  rewrite (serve_patch jwt_decode req k payload s Hp Hm Ha) in Hs.
  rewrite (update_drink_found req k payload s d Hd) in Hs.
  pose proof (filter_singleton_id k (rows s) d Hd) as Hid.
  destruct (get_json req) as [| x | z | str | l | kvs] eqn:Eb;
    try (rewrite update_drink_try_not_dict in Hs by (intros kvs'; discriminate);
         injection Hs as <- <-; discriminate H200).
  rewrite update_drink_try_dict in Hs.
  destruct (update_cases (patched (JObj kvs) d)
              (mkStore (rows s) (ops s ++ [OpQueryById k]))) as [[e He] | Hok].
  - rewrite He in Hs. injection Hs as <- <-. discriminate H200.
  - rewrite Hok in Hs. rewrite patched_id, Hid in Hs.
    destruct (DrinkModel.long (patched (JObj kvs) d)) as [view|e] eqn:El.
    + injection Hs as <- <-. exists view. simpl.
      rewrite <- app_assoc. repeat split.
    + rewrite (handle_unhandled e (long_raises _ e El)) in Hs.
      injection Hs as <- <-. discriminate H200.
Qed.

(** X7. An update that was answered 200 can be repeated: the same request
    again gets the same response and leaves every row as the first left
    it. *)
Theorem update_twice_is_update_once (req : Request) (k : Z)
  (payload : Claims) (s : Store) (d : Drink) (r : Response) (s1 : Store) :
  path req = PathDrinkId k -> method req = PATCH ->
  authenticate jwt_decode "patch:drinks" req = Ok payload ->
  rows_with k s = [d] ->
  serve jwt_decode req s = (r, s1) -> status r = 200 ->
  exists s2, serve jwt_decode req s1 = (r, s2) /\ rows s2 = rows s1.
Proof.
  intros Hp Hm Ha Hd Hs H200.
  destruct (update_answered_200 req k payload s d r s1 Hp Hm Ha Hd Hs H200)
    as (view & Hview & -> & ->).
  set (p := patched (get_json req) d) in *.
  set (s1 := mkStore (map (fun x => if id x =? k then p else x) (rows s))
                     (ops s ++ [OpQueryById k; OpUpdate k])).
  pose proof (filter_singleton_id k (rows s) d Hd) as Hid.
  assert (Hp1 : rows_with k s1 = [p]).
  { unfold rows_with, s1. simpl. rewrite filter_map_same_id.
    - fold (rows_with k s). rewrite Hd. simpl. rewrite Hid, Z.eqb_refl.
      reflexivity.
    - intros x. destruct (id x =? k) eqn:E; [|reflexivity].
      apply Z.eqb_eq in E. unfold p. rewrite patched_id. congruence. }
  assert (Hidp : id p = k) by (unfold p; rewrite patched_id; exact Hid).
  rewrite (serve_patch jwt_decode req k payload s1 Hp Hm Ha).
  rewrite (update_drink_found req k payload s1 p Hp1).
  destruct (get_json req) as [| x | z | str | l | kvs] eqn:Eb;
    try (exfalso; revert Hs;
         rewrite (serve_patch jwt_decode req k payload s Hp Hm Ha);
         rewrite (update_drink_found req k payload s d Hd);
         rewrite Eb;
         rewrite update_drink_try_not_dict by (intros kvs'; discriminate);
         intros Hs; injection Hs as Hs _; discriminate Hs).
  rewrite update_drink_try_dict.
  assert (Hpp : patched (JObj kvs) p = p) by (unfold p; apply patched_twice).
  rewrite Hpp.
  assert (Hp1' : rows_with (id p)
                   (mkStore (rows s1) (ops s1 ++ [OpQueryById k])) = [p]).
  { rewrite Hidp. exact Hp1. }
  rewrite (update_same_title p p _ Hp1' eq_refl eq_refl).
  rewrite Hview. eexists. split; [reflexivity|].
  apply (map_replace_same (id p)). exact Hp1'.
Qed.

(** X8. An update never adds, removes or renumbers a row: whatever the
    request on the update route, with or without a valid token, the ids of
    the table are the same list before and after. *)
Theorem update_keeps_ids (req : Request) (k : Z) (s : Store) :
  path req = PathDrinkId k -> method req = PATCH ->
  map id (rows (snd (serve jwt_decode req s))) = map id (rows s).
Proof.
  intros Hp Hm. unfold serve, url_map. rewrite Hp, Hm.
  rewrite requires_auth_authenticate.
  destruct (authenticate jwt_decode "patch:drinks" req) as [payload|e];
    [|reflexivity].
  pose proof (update_drink_ids req k payload s) as H.
  destruct (update_drink req k payload s) as [[r|e] s1]; exact H.
Qed.

(** X12. The response of an update that is answered 200 shows the row as it
    is stored afterwards: its id, the submitted title when that is truthy and
    the old one otherwise, and the submitted recipe as it was sent, with no
    wrapping of a single entry, when that is truthy and the old recipe
    otherwise. *)
Theorem update_answers_with_patched_row (req : Request) (k : Z)
  (payload : Claims) (s : Store) (d : Drink) (old : json)
  (r : Response) (s1 : Store) :
  path req = PathDrinkId k -> method req = PATCH ->
  authenticate jwt_decode "patch:drinks" req = Ok payload ->
  rows_with k s = [d] -> recipe d = json_dumps old ->
  serve jwt_decode req s = (r, s1) -> status r = 200 ->
  body r
  = JObj [("success", JBool true);
          ("drinks",
           JArr [JObj [("id", JNum k);
                       ("title",
                        if truthy (submitted (get_json req) "title")
                        then submitted (get_json req) "title" else title d);
                       ("recipe",
                        if truthy (submitted (get_json req) "recipe")
                        then submitted (get_json req) "recipe" else old)]])].
Proof.
  intros Hp Hm Ha Hd Hold Hs H200.
  destruct (update_answered_200 req k payload s d r s1 Hp Hm Ha Hd Hs H200)
    as (view & Hview & -> & _).
  pose proof (filter_singleton_id k (rows s) d Hd) as Hid.
  simpl. do 3 f_equal.
  unfold patched in Hview. rewrite Hid in Hview.
  destruct (truthy (submitted (get_json req) "recipe"));
    [| rewrite Hold in Hview]; rewrite long_dumps in Hview;
    now injection Hview as <-.
Qed.

End Updates.

(** *** Deletes *)

Lemma filter_none_keeps_all {A : Type} (p : A -> bool) (l : list A) :
  filter p l = [] -> filter (fun x => negb (p x)) l = l.
Proof.
  induction l as [|x l IH]; simpl; [reflexivity|].
  destruct (p x); [discriminate|]. intros H. simpl. now rewrite IH.
Qed.

Lemma filter_one_splits {A : Type} (p : A -> bool) (l : list A) (d : A) :
  filter p l = [d] ->
  exists l1 l2,
    l = (l1 ++ d :: l2)%list
    /\ filter (fun x => negb (p x)) l = (l1 ++ l2)%list.
Proof.
  induction l as [|x l IH]; simpl; [discriminate|].
  destruct (p x) eqn:E; simpl.
  - intros H. injection H as -> Hl. exists [], l. split; [reflexivity|].
    exact (filter_none_keeps_all p l Hl).
  - intros H. destruct (IH H) as (l1 & l2 & -> & Hf).
    exists (x :: l1), l2. split; [reflexivity|]. simpl. now rewrite Hf.
Qed.

Section Deletes.

Variable jwt_decode : string -> JwtOutcome.

(** X9. A delete cannot be repeated: after a delete of an id that one row
    had, the same request again is answered by the handler of 404 and
    leaves every row as it is. *)
Theorem delete_twice_is_not_found (req : Request) (k : Z) (payload : Claims)
  (s : Store) (d : Drink) :
  path req = PathDrinkId k -> method req = DELETE ->
  authenticate jwt_decode "delete:drinks" req = Ok payload ->
  rows_with k s = [d] ->
  fst (serve jwt_decode req (snd (serve jwt_decode req s))) = not_found
  /\ rows (snd (serve jwt_decode req (snd (serve jwt_decode req s))))
     = rows (snd (serve jwt_decode req s)).
Proof.
  intros Hp Hm Ha Hd.
  rewrite (serve_delete jwt_decode req k payload s Hp Hm Ha).
  rewrite (delete_drink_found k payload s d Hd). simpl snd.
  set (s1 := mkStore _ _).
  assert (H1 : rows_with k s1 = []).
  { unfold rows_with, s1. simpl.
    destruct (filter _ (filter _ (rows s))) as [|x l] eqn:E; [reflexivity|].
    assert (Hx : In x (filter (fun d => id d =? k)
                          (filter (fun r => negb (id r =? k)) (rows s))))
      by (rewrite E; now left).
    apply filter_In in Hx as [Hx Hk]. apply filter_In in Hx as [_ Hx].
    rewrite Hk in Hx. discriminate Hx. }
  rewrite (missing_id_not_found jwt_decode req k payload s1 Hp
             (or_intror (conj Hm Ha)) H1).
  split; reflexivity.
Qed.

(** X10. A delete of an id that one row has takes that row out of the table
    where it stands and nothing else: the rows before it and the rows after
    it stay, in their order, and the table is one row shorter. *)
Theorem delete_removes_one_row (req : Request) (k : Z) (payload : Claims)
  (s : Store) (d : Drink) :
  path req = PathDrinkId k -> method req = DELETE ->
  authenticate jwt_decode "delete:drinks" req = Ok payload ->
  rows_with k s = [d] ->
  exists l1 l2,
    rows s = (l1 ++ d :: l2)%list
    /\ rows (snd (serve jwt_decode req s)) = (l1 ++ l2)%list
    /\ S (List.length (rows (snd (serve jwt_decode req s)))) = List.length (rows s).
Proof.
  intros Hp Hm Ha Hd.
  rewrite (serve_delete jwt_decode req k payload s Hp Hm Ha).
  rewrite (delete_drink_found k payload s d Hd). simpl.
  destruct (filter_one_splits (fun x => id x =? k) (rows s) d Hd)
    as (l1 & l2 & E & Hf).
  exists l1, l2. rewrite Hf, E. repeat split.
  rewrite !List.length_app. simpl. lia.
Qed.

End Deletes.

(** *** Creates *)

Lemma comprehension_app {A B : Type} (f : A -> result B) (l1 l2 : list A)
  (a b : list B) :
  comprehension f l1 = Ok a -> comprehension f l2 = Ok b ->
  comprehension f (l1 ++ l2) = Ok (a ++ b)%list.
Proof.
  revert a. induction l1 as [|x l1 IH]; simpl; intros a Ha Hb.
  - injection Ha as <-. exact Hb.
  - destruct (f x) as [y|]; [|discriminate].
    destruct (comprehension f l1) as [ys|]; [|discriminate].
    injection Ha as <-. rewrite (IH ys eq_refl Hb). reflexivity.
Qed.

(** The id that [insert] assigns is above every id of the table. *)
Lemma fresh_id_above (l : list Drink) (x : Drink) :
  In x l -> id x < DrinkModel.fresh_id l.
Proof.
  unfold DrinkModel.fresh_id. induction l as [|y l IH]; [contradiction|].
  cbn [map fold_right]. intros [-> | H]; [lia|]. specialize (IH H). lia.
Qed.

Lemma fresh_id_unused (l : list Drink) :
  ~ In (DrinkModel.fresh_id l) (map id l).
Proof.
  intros H. apply in_map_iff in H as (x & Hx & Hin).
  pose proof (fresh_id_above l x Hin). lia.
Qed.

(** The full views of rows whose recipes [json.dumps] wrote. *)
Lemma long_views_of_rows (l : list Drink) (views : list json) :
  Forall (fun d => exists v, recipe d = json_dumps v) l ->
  comprehension DrinkModel.long l = Ok views ->
  Forall2 (fun d view =>
             exists v,
               recipe d = json_dumps v
               /\ view = JObj [("id", JNum (id d)); ("title", title d);
                               ("recipe", v)])
          l views.
Proof.
  intros Hw E. apply comprehension_views in E.
  induction E as [|d view l' views' Hd _ IH]; [constructor|].
  inversion Hw as [|? ? [v Hv] Hl]; subst.
  constructor; [|exact (IH Hl)].
  exists v. split; [exact Hv|].
  destruct d as [k t r]. simpl in Hv. subst r.
  rewrite long_dumps in Hd. now injection Hd as <-.
Qed.

Section Creates.

Variable jwt_decode : string -> JwtOutcome.

(** X11. What a create request answers is what the detail list shows
    afterwards.  A create that is answered 200 shows one drink: an id that no
    row of the table has, the title as submitted, and the recipe as submitted
    but for a single entry, which is shown in a list; and the detail list
    served next, on a table whose recipes [json.dumps] wrote, is the full
    views of the rows that were there, in their order, followed by that same
    view. *)
Theorem created_drink_is_listed (req listing : Request)
  (payload payload' : Claims) (s : Store) (r : Response) (s1 : Store) :
  well_stored s ->
  path req = PathDrinks -> method req = POST ->
  authenticate jwt_decode "post:drinks" req = Ok payload ->
  serve jwt_decode req s = (r, s1) -> status r = 200 ->
  path listing = PathDrinksDetail -> method listing = GET ->
  authenticate jwt_decode "get:drinks-detail" listing = Ok payload' ->
  exists t v view views,
    getitem (get_json req) "title" = Ok t
    /\ getitem (get_json req) "recipe" = Ok v
    /\ view = JObj [("id", JNum (DrinkModel.fresh_id (rows s)));
                    ("title", t); ("recipe", normalized v)]
    /\ ~ In (DrinkModel.fresh_id (rows s)) (map id (rows s))
    /\ r = mkResponse (JObj [("success", JBool true);
                             ("drinks", JArr [view])]) 200
    /\ Forall2 (fun d earlier =>
                  exists old,
                    recipe d = json_dumps old
                    /\ earlier = JObj [("id", JNum (id d)); ("title", title d);
                                       ("recipe", old)])
               (rows s) views
    /\ fst (serve jwt_decode listing s1)
       = mkResponse (JObj [("success", JBool true);
                           ("drinks", JArr (views ++ [view]))]) 200.
Proof.
  intros Hw Hp Hm Ha Hs H200 Hp' Hm' Ha'.
  rewrite (serve_post jwt_decode req payload s Hp Hm Ha) in Hs.
  destruct (create_drink_try_cases (get_json req) s)
    as [(e & s0 & H & _) | (t & v & Hv & Ht & _ & H)].
  - rewrite (create_drink_raise req payload s s0 e H) in Hs.
    injection Hs as <- <-. discriminate H200.
  - rewrite (create_drink_ok req payload s t v H) in Hs.
    injection Hs as <- <-.
    destruct (comprehension_long_total (rows s) Hw) as [views E].
    exists t, v,
      (JObj [("id", JNum (DrinkModel.fresh_id (rows s)));
             ("title", t); ("recipe", normalized v)]), views.
    split; [exact Ht|]. split; [exact Hv|]. split; [reflexivity|].
    split; [apply fresh_id_unused|].
    split; [reflexivity|].
    split; [exact (long_views_of_rows (rows s) views Hw E)|].
    unfold serve, url_map. rewrite Hp', Hm'.
    rewrite requires_auth_authenticate, Ha', get_drink_detail_run.
    simpl rows.
    rewrite (comprehension_app DrinkModel.long (rows s) [created t v s] views
               [JObj [("id", JNum (DrinkModel.fresh_id (rows s)));
                      ("title", t); ("recipe", normalized v)]] E).
    + reflexivity.
    + simpl. unfold created. rewrite long_dumps. reflexivity.
Qed.

(** X13. The create handler refuses a body before the storage layer is
    reached when the body is not a JSON object or has no recipe or no title:
    the answer is the bad-request envelope and the store comes back as it
    was.  With both fields in the body the insert is attempted, once, and no
    other operation reaches the storage layer. *)
Theorem create_validates_before_storage (req : Request) (payload : Claims)
  (s : Store) :
  path req = PathDrinks -> method req = POST ->
  authenticate jwt_decode "post:drinks" req = Ok payload ->
  ((exists e, getitem (get_json req) "recipe" = Raise e)
   \/ (exists e, getitem (get_json req) "title" = Raise e) ->
   serve jwt_decode req s = (bad_request, s))
  /\ ((exists v, getitem (get_json req) "recipe" = Ok v)
      /\ (exists t, getitem (get_json req) "title" = Ok t) ->
      ops (snd (serve jwt_decode req s)) = (ops s ++ [OpInsert])%list).
Proof.
  intros Hp Hm Ha. rewrite (serve_post jwt_decode req payload s Hp Hm Ha).
  split.
  - intros H.
    assert (H' : exists e, create_drink_try (get_json req) s = (Raise e, s)).
    { destruct (getitem (get_json req) "recipe") as [v|e] eqn:Hr.
      - destruct H as [[e H] | [e H]]; [discriminate H|].
        exists e. exact (create_drink_try_no_title _ v e s Hr H).
      - exists e. exact (create_drink_try_no_recipe _ e s Hr). }
    destruct H' as [e H'].
    rewrite (create_drink_raise req payload s s e H'). reflexivity.
  - intros [[v Hv] [t Ht]].
    pose proof (create_drink_try_run _ t v s Hv Ht) as H.
    destruct (existsb _ (rows s)).
    + rewrite (create_drink_raise req payload s _ _ H). reflexivity.
    + rewrite (create_drink_ok req payload s t v H). reflexivity.
Qed.

End Creates.

(** *** The table under any request *)

Lemma map_id_filter (k : Z) (l : list Drink) :
  map id (filter (fun r => negb (id r =? k)) l)
  = filter (fun x => negb (x =? k)) (map id l).
Proof.
  induction l as [|x l IH]; simpl; [reflexivity|].
  destruct (id x =? k); simpl; now rewrite IH.
Qed.

(** X14. No request reorders the table.  The ids of the rows after a request
    are the ids before it, or, after a create request, those with one id
    added at the end, or, after a delete request, those with one id taken
    out. *)
Theorem requests_keep_table_order (jwt_decode : string -> JwtOutcome)
  (req : Request) (s : Store) :
  map id (rows (snd (serve jwt_decode req s))) = map id (rows s)
  \/ (creates req = true
      /\ exists k, map id (rows (snd (serve jwt_decode req s)))
                   = (map id (rows s) ++ [k])%list)
  \/ (method req = DELETE
      /\ exists k, map id (rows (snd (serve jwt_decode req s)))
                   = filter (fun x => negb (x =? k)) (map id (rows s))).
Proof.
  unfold serve, url_map.
  destruct (path req) as [| | k |] eqn:Hp; destruct (method req) eqn:Hm;
    try (left; reflexivity);
    rewrite requires_auth_authenticate;
    (destruct (authenticate jwt_decode _ req) as [payload|e];
     [|left; reflexivity]).
  - left. rewrite get_drinks_run.
    destruct (comprehension DrinkModel.short (rows s)); reflexivity.
  - destruct (create_drink_try_cases (get_json req) s)
      as [(e & s1 & H & Hrows) | (t & r & _ & _ & _ & H)].
    + left. rewrite (create_drink_raise req payload s s1 e H). simpl.
      now rewrite Hrows.
    + right. left. split; [unfold creates; now rewrite Hp, Hm|].
      rewrite (create_drink_ok req payload s t r H). simpl.
      exists (DrinkModel.fresh_id (rows s)). rewrite map_app. reflexivity.
  - left. rewrite get_drink_detail_run.
    destruct (comprehension DrinkModel.long (rows s)); reflexivity.
  - left. pose proof (update_drink_ids req k payload s) as H.
    destruct (update_drink req k payload s) as [[r|e] s1]; exact H.
  - destruct (rows_with k s) as [|d [|d' l]] eqn:Hd.
    + left. rewrite (delete_drink_missing k payload s Hd). reflexivity.
    + right. right. split; [reflexivity|]. exists k.
      rewrite (delete_drink_found k payload s d Hd). simpl.
      apply map_id_filter.
    + left. unfold delete_drink, bind. rewrite query_one_or_none_run, Hd.
      reflexivity.
Qed.

(** *** The statements at sample requests, continued *)

(** X6 at a sample request: an update of the only drink with a list as its
    body. *)
Lemma update_looks_up_id_before_fields_witness :
  let req := as_manager PATCH (PathDrinkId 1) (JArr []) in
  let d := mkDrink 1 (JStr "Water") (json_dumps (JArr [water])) in
  path req = PathDrinkId 1 /\ method req = PATCH
  /\ authenticate sample_jwt "patch:drinks" req = Ok manager_claims
  /\ rows_with 1 one_drink = [d]
  /\ serve sample_jwt req one_drink
     = (bad_request,
        mkStore (rows one_drink) (ops one_drink ++ [OpQueryById 1])).
Proof.
  intros req d. do 4 (split; [reflexivity|]).
  destruct (update_looks_up_id_before_fields sample_jwt req 1 manager_claims
              one_drink eq_refl eq_refl eq_refl) as [_ H].
  apply (H d eq_refl). intros kvs. discriminate.
Defined.

(** X7 at a sample request: a new title for the only drink, twice. *)
Lemma update_twice_is_update_once_witness :
  let req := as_manager PATCH (PathDrinkId 1) (JObj [("title", JStr "Tea")]) in
  let d := mkDrink 1 (JStr "Water") (json_dumps (JArr [water])) in
  let r := fst (serve sample_jwt req one_drink) in
  let s1 := snd (serve sample_jwt req one_drink) in
  path req = PathDrinkId 1 /\ method req = PATCH
  /\ authenticate sample_jwt "patch:drinks" req = Ok manager_claims
  /\ rows_with 1 one_drink = [d]
  /\ status r = 200
  /\ exists s2, serve sample_jwt req s1 = (r, s2) /\ rows s2 = rows s1.
Proof.
  intros req d r s1. do 5 (split; [reflexivity|]).
  exact (update_twice_is_update_once sample_jwt req 1 manager_claims
           one_drink d r s1 eq_refl eq_refl eq_refl eq_refl eq_refl eq_refl).
Defined.

(** X8 at a sample request: an update of the only drink by a token without
    the scope. *)
Lemma update_keeps_ids_witness :
  let req := mkRequest PATCH (PathDrinkId 1) (Some "Bearer barista")
                       (JObj [("title", JStr "Tea")]) in
  path req = PathDrinkId 1 /\ method req = PATCH
  /\ map id (rows (snd (serve sample_jwt req one_drink)))
     = map id (rows one_drink).
Proof.
  intros req. do 2 (split; [reflexivity|]).
  exact (update_keeps_ids sample_jwt req 1 one_drink eq_refl eq_refl).
Defined.

(** X12 at a sample request: a single entry as the new recipe. *)
Lemma update_answers_with_patched_row_witness :
  let req := as_manager PATCH (PathDrinkId 1) (JObj [("recipe", water)]) in
  let d := mkDrink 1 (JStr "Water") (json_dumps (JArr [water])) in
  path req = PathDrinkId 1 /\ method req = PATCH
  /\ authenticate sample_jwt "patch:drinks" req = Ok manager_claims
  /\ rows_with 1 one_drink = [d]
  /\ status (fst (serve sample_jwt req one_drink)) = 200
  /\ body (fst (serve sample_jwt req one_drink))
     = JObj [("success", JBool true);
             ("drinks",
              JArr [JObj [("id", JNum 1); ("title", JStr "Water");
                          ("recipe", water)]])].
Proof.
  intros req d. do 5 (split; [reflexivity|]).
  exact (update_answers_with_patched_row sample_jwt req 1 manager_claims
           one_drink d (JArr [water]) _ _
           eq_refl eq_refl eq_refl eq_refl eq_refl eq_refl eq_refl).
Defined.

(** X9 at a sample request: the only drink is deleted twice. *)
Lemma delete_twice_is_not_found_witness :
  let req := as_manager DELETE (PathDrinkId 1) JNull in
  let d := mkDrink 1 (JStr "Water") (json_dumps (JArr [water])) in
  path req = PathDrinkId 1 /\ method req = DELETE
  /\ authenticate sample_jwt "delete:drinks" req = Ok manager_claims
  /\ rows_with 1 one_drink = [d]
  /\ fst (serve sample_jwt req (snd (serve sample_jwt req one_drink)))
     = not_found.
Proof.
  intros req d. do 4 (split; [reflexivity|]).
  exact (proj1 (delete_twice_is_not_found sample_jwt req 1 manager_claims
                  one_drink d eq_refl eq_refl eq_refl eq_refl)).
Defined.

(** X10 at a sample request: the only drink is deleted. *)
Lemma delete_removes_one_row_witness :
  let req := as_manager DELETE (PathDrinkId 1) JNull in
  let d := mkDrink 1 (JStr "Water") (json_dumps (JArr [water])) in
  path req = PathDrinkId 1 /\ method req = DELETE
  /\ authenticate sample_jwt "delete:drinks" req = Ok manager_claims
  /\ rows_with 1 one_drink = [d]
  /\ S (List.length (rows (snd (serve sample_jwt req one_drink))))
     = List.length (rows one_drink).
Proof.
  intros req d. do 4 (split; [reflexivity|]).
  destruct (delete_removes_one_row sample_jwt req 1 manager_claims
              one_drink d eq_refl eq_refl eq_refl eq_refl)
    as (l1 & l2 & _ & _ & H).
  exact H.
Defined.

(** X11 at sample requests: a second drink, with a single entry as its
    recipe, then the detail list. *)
Lemma created_drink_is_listed_witness :
  let req := as_manager POST PathDrinks
               (JObj [("title", JStr "Tea"); ("recipe", water)]) in
  let listing := mkRequest GET PathDrinksDetail (Some "Bearer barista") JNull in
  let r := fst (serve sample_jwt req one_drink) in
  let s1 := snd (serve sample_jwt req one_drink) in
  well_stored one_drink
  /\ path req = PathDrinks /\ method req = POST
  /\ authenticate sample_jwt "post:drinks" req = Ok manager_claims
  /\ status r = 200
  /\ exists view views,
      r = mkResponse (JObj [("success", JBool true);
                            ("drinks", JArr [view])]) 200
      /\ fst (serve sample_jwt listing s1)
         = mkResponse (JObj [("success", JBool true);
                             ("drinks", JArr (views ++ [view]))]) 200.
Proof.
  intros req listing r s1.
  assert (Hw : well_stored one_drink).
  { constructor; [|constructor]. exists (JArr [water]). reflexivity. }
  split; [exact Hw|]. do 4 (split; [reflexivity|]).
  destruct (created_drink_is_listed sample_jwt req listing manager_claims
              (mkClaims "issuer" "drinks" 0
                        (Some ["get:drinks"; "get:drinks-detail"]))
              one_drink r s1 Hw
              eq_refl eq_refl eq_refl eq_refl eq_refl eq_refl eq_refl eq_refl)
    as (t & v & view & views & _ & _ & _ & _ & Hr & _ & Hl).
  exists view, views. split; assumption.
Defined.

(** X13 at a sample request: a create request with a title and no recipe. *)
Lemma create_validates_before_storage_witness :
  let req := as_manager POST PathDrinks (JObj [("title", JStr "Tea")]) in
  path req = PathDrinks /\ method req = POST
  /\ authenticate sample_jwt "post:drinks" req = Ok manager_claims
  /\ getitem (get_json req) "recipe" = Raise (KeyError "recipe")
  /\ serve sample_jwt req one_drink = (bad_request, one_drink).
Proof.
  intros req. do 4 (split; [reflexivity|]).
  destruct (create_validates_before_storage sample_jwt req manager_claims
              one_drink eq_refl eq_refl eq_refl) as [H _].
  apply H. left. exists (KeyError "recipe"). reflexivity.
Defined.

(** *** No partial effect *)

(** X15. A request that is not answered 200 changes no row: on a table whose
    recipes [json.dumps] wrote, whatever a request did before it failed, the
    rows after it are the rows before it. *)
Theorem failed_requests_change_nothing (jwt_decode : string -> JwtOutcome)
  (req : Request) (s : Store) :
  well_stored s ->
  status (fst (serve jwt_decode req s)) <> 200 ->
  rows (snd (serve jwt_decode req s)) = rows s.
Proof.
  intros Hw. unfold serve, url_map.
  destruct (path req) as [| | k |] eqn:Hp; destruct (method req) eqn:Hm;
    try (intros _; reflexivity);
    rewrite requires_auth_authenticate;
    (destruct (authenticate jwt_decode _ req) as [payload|e];
     [|intros _; reflexivity]).
  - intros _. rewrite get_drinks_run.
    destruct (comprehension DrinkModel.short (rows s)); reflexivity.
  - destruct (create_drink_try_cases (get_json req) s)
      as [(e & s1 & H & Hrows) | (t & r & _ & _ & _ & H)].
    + intros _. rewrite (create_drink_raise req payload s s1 e H). exact Hrows.
    + rewrite (create_drink_ok req payload s t r H). simpl.
      intros Hn. now contradiction Hn.
  - intros _. rewrite get_drink_detail_run.
    destruct (comprehension DrinkModel.long (rows s)); reflexivity.
  - destruct (rows_with k s) as [|d [|d' l]] eqn:Hd.
    + intros _. rewrite (update_drink_missing req k payload s Hd). reflexivity.
    + rewrite (update_drink_found req k payload s d Hd).
      assert (Hdw : exists v, recipe d = json_dumps v).
      { assert (Hin : In d (rows s)).
        { assert (H : In d (rows_with k s)) by (rewrite Hd; now left).
          apply filter_In in H. tauto. }
        exact (proj1 (Forall_forall _ _) Hw d Hin). }
      destruct (get_json req) as [| x | z | str | l | kvs];
        try (rewrite update_drink_try_not_dict by (intros kvs'; discriminate);
             intros _; reflexivity).
      rewrite update_drink_try_dict.
      destruct (update_cases (patched (JObj kvs) d)
                  (mkStore (rows s) (ops s ++ [OpQueryById k])))
        as [[e He] | Hok].
      * rewrite He. intros _. reflexivity.
      * rewrite Hok.
        assert (Hl : exists view,
                   DrinkModel.long (patched (JObj kvs) d) = Ok view).
        { destruct Hdw as [v Hv]. unfold patched.
          destruct (truthy (submitted (JObj kvs) "recipe"));
            [| rewrite Hv]; rewrite long_dumps; eexists; reflexivity. }
        destruct Hl as [view Hl]. rewrite Hl. simpl.
        intros Hn. now contradiction Hn.
    + intros _. unfold update_drink, bind.
      rewrite query_one_or_none_run, Hd. reflexivity.
  - destruct (rows_with k s) as [|d [|d' l]] eqn:Hd.
    + intros _. rewrite (delete_drink_missing k payload s Hd). reflexivity.
    + rewrite (delete_drink_found k payload s d Hd). simpl.
      intros Hn. now contradiction Hn.
    + intros _. unfold delete_drink, bind.
      rewrite query_one_or_none_run, Hd. reflexivity.
Qed.

(** X15 at a sample request: a second drink under the title of the first. *)
Lemma failed_requests_change_nothing_witness :
  let req := as_manager POST PathDrinks
               (JObj [("title", JStr "Water"); ("recipe", JArr [])]) in
  well_stored one_drink
  /\ status (fst (serve sample_jwt req one_drink)) <> 200
  /\ rows (snd (serve sample_jwt req one_drink)) = rows one_drink.
Proof.
  intros req.
  assert (Hw : well_stored one_drink).
  { constructor; [|constructor]. exists (JArr [water]). reflexivity. }
  assert (Hn : status (fst (serve sample_jwt req one_drink)) <> 200).
  { vm_compute. discriminate. }
  split; [exact Hw|]. split; [exact Hn|].
  exact (failed_requests_change_nothing sample_jwt req one_drink Hw Hn).
Defined.
